(** * evennia.contrib.collab.typeclasses

    A shallow embedding of [evennia/contrib/collab/typeclasses.py]: the
    namespace descriptors installed on [CollabBase], the appearance hook
    [return_appearance], the exit command set factory
    [CollabExit.create_exit_cmdset] and the zone command set cache of
    [CollabRoom].

    Python objects whose identity matters (the cached zone command set, the
    namespace holders) live in a store and are handled by address.  Calls
    that raise are results in an exception monad that threads the store.
    Functions and classes imported from the rest of evennia ([collab_check],
    [get_owner], [evtemplate], [search_object_by_tag], [CmdSet], ...) are
    the fields of the class [Externals]: nothing is assumed about what they
    compute. *)

From stdpp Require Import gmap strings list pretty.
From Stdlib Require Import ZArith Ascii.

Open Scope string_scope.
Open Scope list_scope.

(** ** Python strings *)

Module PyStr.

(** [sep.join(l)] *)
Definition join (sep : string) (l : list string) : string := String.concat sep l.

(** [sub in s] *)
Fixpoint contains (sub s : string) : bool :=
  String.prefix sub s ||
  match s with
  | EmptyString => false
  | String _ s' => contains sub s'
  end.

(** Truth value of a string: non-empty. *)
Definition truthy (s : string) : bool :=
  match s with EmptyString => false | String _ _ => true end.

Definition newline : string := String (ascii_of_nat 10) EmptyString.

End PyStr.

(** ** Python text

    A stored key is a [unicode] object: a sequence of code points.  Which
    code points are whitespace and what the lowercase of one is belongs to
    the interpreter's Unicode database, so both are arguments here; in
    Python 2.7 [strip] and [lower] work code point by code point. *)

Module PyText.

Definition text : Type := list N.

(** [t.lower()] *)
Definition lower (tolower : N -> N) (t : text) : text := map tolower t.

(** [t.lstrip()] *)
Fixpoint lstrip (isspace : N -> bool) (t : text) : text :=
  match t with
  | [] => []
  | c :: t' => if isspace c then lstrip isspace t' else t
  end.

(** [t.rstrip()] *)
Fixpoint rstrip (isspace : N -> bool) (t : text) : text :=
  match t with
  | [] => []
  | c :: t' =>
      match rstrip isspace t' with
      | [] => if isspace c then [] else [c]
      | r => c :: r
      end
  end.

(** [t.strip()] *)
Definition strip (isspace : N -> bool) (t : text) : text :=
  rstrip isspace (lstrip isspace t).

(** A text made of whitespace only. *)
Definition blank (isspace : N -> bool) (t : text) : bool := forallb isspace t.

(** A text that neither begins nor ends with whitespace. *)
Definition trimmed (isspace : N -> bool) (t : text) : bool :=
  match t with
  | [] => true
  | c :: _ => negb (isspace c) && negb (isspace (List.last t c))
  end.

(** The text of an ASCII literal, and the string of a text. *)
Definition of_string (s : string) : text :=
  map N_of_ascii (String.list_ascii_of_string s).

Definition to_string (t : text) : string :=
  String.string_of_list_ascii (map ascii_of_N t).

End PyText.

(** ** Exceptions and the store-passing monad *)

Inductive exn : Type :=
| TypeError (msg : string)
| AttributeError (msg : string)
| Exception (msg : string).

Definition exn_message (e : exn) : string :=
  match e with
  | TypeError m | AttributeError m | Exception m => m
  end.

Inductive result (A : Type) : Type :=
| Ok (a : A)
| Raise (e : exn).
Arguments Ok {A} a.
Arguments Raise {A} e.

(** A computation over a store [S]: it returns or raises, and the store
    keeps the mutations made before an exception. *)
Definition M (S A : Type) : Type := S -> result A * S.

Definition ret {S A} (a : A) : M S A := fun s => (Ok a, s).

Definition bind {S A B} (c : M S A) (k : A -> M S B) : M S B :=
  fun s => match c s with
           | (Ok a, s') => k a s'
           | (Raise e, s') => (Raise e, s')
           end.

Definition raise {S A} (e : exn) : M S A := fun s => (Raise e, s).

Definition gets {S A} (f : S -> A) : M S A := fun s => (Ok (f s), s).

Definition modify {S} (f : S -> S) : M S unit := fun s => (Ok tt, f s).

(** [try: c except AttributeError: h] *)
Definition try_except_AttributeError {S A} (c : M S A) (h : M S A) : M S A :=
  fun s => match c s with
           | (Raise (AttributeError _), s') => h s'
           | r => r
           end.

(** [for x in l: body(x)] *)
Fixpoint for_each {S A} (l : list A) (body : A -> M S unit) : M S unit :=
  match l with
  | [] => ret tt
  | x :: l' => bind (body x) (fun _ => for_each l' body)
  end.

Notation "x <- c ;; k" := (bind c (fun x => k))
  (at level 100, c at next level, right associativity).
Notation "c ;;; k" := (bind c (fun _ => k))
  (at level 100, right associativity).

(** ** The namespace descriptors (lines 141-178)

    [make_descriptors] builds, for each attribute handler class, the
    functions that are installed on [CollabBase] as the property [<key>db]. *)

Module Descriptors.

Inductive value : Type :=
| VNone
| VInt (z : Z)
| VStr (s : string)
| VObject (dbref : nat)                       (* a typeclassed entity *)
| VHolder (addr : nat)                        (* a DbHolder instance *)
| VHandler (attrtype : string) (dbref : nat). (* an AttributeHandler *)

(** [DbHolder(obj, name, manager_name=...)] *)
Record DbHolder : Type := mkDbHolder {
  holder_obj : nat;
  holder_name : string;
  holder_manager_name : string;
}.

(** Instance dictionaries of the entities, keyed by entity and attribute
    name, and the holders allocated so far (a holder's address is its
    position). *)
Record Instances : Type := mkInstances {
  attrs : gmap (nat * string) value;
  holders : list DbHolder;
}.

(** [getattr(self, name)] and [setattr(self, name, v)] for a name that is
    not a class attribute: the instance dictionary. *)
Definition getattr (self : nat) (name : string) : M Instances value :=
  fun s => match attrs s !! (self, name) with
           | Some v => (Ok v, s)
           | None => (Raise (AttributeError ("object has no attribute '" +:+ name +:+ "'")), s)
           end.

Definition setattr (self : nat) (name : string) (v : value) : M Instances unit :=
  modify (fun s => mkInstances (<[(self, name) := v]> (attrs s)) (holders s)).

(** A Python function: [def fn_name(p1, ..., pn): body].  Calling it with
    another number of positional arguments raises TypeError before the body
    runs, with CPython 2.7's message. *)
Record pyfunction : Type := mkFunction {
  fn_name : string;
  fn_arity : nat;
  fn_body : list value -> M Instances value;
}.

Definition arity_message (f : pyfunction) (given : nat) : string :=
  fn_name f +:+ "() takes exactly " +:+ pretty (fn_arity f) +:+ " argument"
  +:+ (if (fn_arity f =? 1)%nat then EmptyString else "s")
  +:+ " (" +:+ pretty given +:+ " given)".

Definition call (f : pyfunction) (args : list value) : M Instances value :=
  if (length args =? fn_arity f)%nat then fn_body f args
  else raise (TypeError (arity_message f (length args))).

Definition bad_arguments : M Instances value :=
  raise (TypeError "bad argument").

(** [lazy_property(func)], read on an instance: the instance dictionary
    comes first; a first read calls [func], stores the result in the
    instance under the function's name and returns it. *)
Definition lazy_get (func : pyfunction) (obj : nat) : M Instances value :=
  try_except_AttributeError
    (getattr obj (fn_name func))
    (v <- call func [VObject obj] ;;
     setattr obj (fn_name func) v ;;;
     ret v).

(** [DbHolder(obj, name, manager_name=...)]: the constructor reads
    [obj.<manager_name>], the lazy property made from [manager], and the
    new holder gets the next address. *)
Definition new_DbHolder (obj : nat) (name manager_name : string) (manager : pyfunction)
  : M Instances value :=
  lazy_get manager obj ;;;
  fun s => (Ok (VHolder (length (holders s))),
            mkInstances (attrs s) (holders s ++ [mkDbHolder obj name manager_name])).

(** The handler classes of [initializers], by their [_attrtype]. *)
Definition initializers : list string :=
  ["wizh"; "wiz"; "imh"; "pub"; "usr"; "usrh"].

Definition holder_attr (key : string) : string := "_" +:+ key +:+ "_holder".

(** [make_descriptors(init, key, name, label)]; [init] is the class whose
    [_attrtype] is [key].  [attributes] is renamed to [name] (line 171) and
    is what the class holds under [name], where the holder's constructor
    looks for its manager. *)
Definition attributes (key name : string) : pyfunction :=
  mkFunction name 1 (fun args =>
    match args with
    | [VObject self] => ret (VHandler key self)
    | _ => bad_arguments
    end).

Definition getter (key name : string) : pyfunction :=
  mkFunction "getter" 1 (fun args =>
    match args with
    | [VObject self] =>
        try_except_AttributeError
          (getattr self (holder_attr key))
          (h <- new_DbHolder self name (key +:+ "attributes") (attributes key name) ;;
           setattr self (holder_attr key) h ;;;
           getattr self (holder_attr key))
    | _ => bad_arguments
    end).

Definition setter (label : string) : pyfunction :=
  mkFunction "setter" 1 (fun args =>
    let string := "Cannot assign directly to " +:+ label +:+ " object! " in
    let string := string +:+ "Use " +:+ label +:+ ".attr=value instead." in
    raise (Exception string)).

Definition deleter (label : string) : pyfunction :=
  mkFunction "deleter" 1 (fun args =>
    raise (Exception ("Cannot delete the " +:+ label +:+ " object!"))).

Definition make_descriptors (key name label : string)
  : pyfunction * pyfunction * pyfunction * pyfunction :=
  (getter key name, setter label, deleter label, attributes key name).

(** [property(fget, fset, fdel)] and its descriptor protocol. *)
Record property : Type := mkProperty {
  fget : pyfunction;
  fset : pyfunction;
  fdel : pyfunction;
}.

Definition property_get (p : property) (obj : value) : M Instances value :=
  call (fget p) [obj].

Definition property_set (p : property) (obj v : value) : M Instances value :=
  call (fset p) [obj; v].

Definition property_delete (p : property) (obj : value) : M Instances value :=
  call (fdel p) [obj].

(** What the loop puts on the class. *)
Inductive descriptor : Type :=
| Property (p : property)
| LazyProperty (func : pyfunction).

(** The loop [for init in initializers: ... setattr(CollabBase, label,
    property(getter, setter, deleter)); setattr(CollabBase, name,
    lazy_property(attributes))]: the descriptors of [CollabBase] by name,
    the later assignment first. *)
Definition install (cls : list (string * descriptor)) (key : string)
  : list (string * descriptor) :=
  let name := key +:+ "attributes" in
  let label := key +:+ "db" in
  let '(getter, setter, deleter, attributes) := make_descriptors key name label in
  (name, LazyProperty attributes) :: (label, Property (mkProperty getter setter deleter)) :: cls.

Definition CollabBase : list (string * descriptor) :=
  fold_left install initializers [].

Fixpoint class_lookup (cls : list (string * descriptor)) (name : string)
  : option descriptor :=
  match cls with
  | [] => None
  | (n, p) :: cls' => if String.eqb n name then Some p else class_lookup cls' name
  end.

(** [self.<name>], [self.<name> = v] and [del self.<name>] on an instance of
    a class that inherits [CollabBase]: a property found on the class takes
    precedence over the instance dictionary, a lazy property does not. *)
Definition get_attribute (self : nat) (name : string) : M Instances value :=
  match class_lookup CollabBase name with
  | Some (Property p) => property_get p (VObject self)
  | Some (LazyProperty func) => lazy_get func self
  | None => getattr self name
  end.

Definition set_attribute (self : nat) (name : string) (v : value) : M Instances value :=
  match class_lookup CollabBase name with
  | Some (Property p) => property_set p (VObject self) v
  | _ => setattr self name v ;;; ret VNone
  end.

Definition del_attribute (self : nat) (name : string) : M Instances value :=
  match class_lookup CollabBase name with
  | Some (Property p) => property_delete p (VObject self)
  | _ =>
      fun s => match attrs s !! (self, name) with
               | Some _ => (Ok VNone, mkInstances (delete (self, name) (attrs s)) (holders s))
               | None => (Raise (AttributeError name), s)
               end
  end.

(** The instance attributes once the attribute handler of [key] has been
    read on [self]: it is stored under [<key>attributes] unless something
    was there. *)
Definition with_handler (key : string) (self : nat) (m : gmap (nat * string) value)
  : gmap (nat * string) value :=
  match m !! (self, key +:+ "attributes") with
  | Some _ => m
  | None => <[(self, key +:+ "attributes") := VHandler key self]> m
  end.

(** The label of a namespace, as the descriptors' messages print it. *)
Definition label_of (key : string) : string := key +:+ "db".

End Descriptors.

(** ** Entities, commands and command sets *)

(** The typeclasses this module defines for in-game objects, and the
    stock exit of evennia, which a tag search may find as well. *)
Inductive typeclass : Type :=
| CollabObject
| CollabCharacter
| CollabExit
| CollabRoom
| DefaultExit.

(** What the code reads from an entity. *)
Record Obj : Type := mkObj {
  dbref : nat;
  obj_typeclass : typeclass;
  db_key : PyText.text;
  aliases_all : list string;          (* aliases.all() *)
  locks_str : string;                 (* str(locks) *)
  db_destination : option nat;        (* the destination's dbref *)
  has_player : bool;
  db_desc : option string;            (* self.db.desc *)
  wizdb_exit_priority : option Z;     (* self.wizdb.exit_priority *)
}.

(** [a != b] on entities. *)
Definition obj_ne (a b : Obj) : bool := negb (dbref a =? dbref b)%nat.

(** [con.destination] *)
Definition destination (o : Obj) : option nat := db_destination o.

(** [hasattr(o, 'create_exit_cmdset')]: exits have the method, CollabExit
    its own and DefaultExit the stock one, which takes no [location]. *)
Definition hasattr_create_exit_cmdset (o : Obj) : bool :=
  match obj_typeclass o with
  | CollabExit | DefaultExit => true
  | _ => false
  end.

(** [class CollabExit: priority = -30] *)
Definition CollabExit_priority : Z := (-30)%Z.

(** The keyword arguments of [self.exit_command(...)]. *)
Record Command : Type := mkCommand {
  cmd_key : PyText.text;
  cmd_aliases : list string;
  cmd_locks : string;
  cmd_auto_help : bool;
  cmd_destination : option nat;
  cmd_arg_regex : string;
  cmd_is_exit : bool;
  cmd_obj : Obj;
}.

(** A [CmdSet] instance.  [priority] is an attribute the caller assigns, so
    it may hold None. *)
Record CmdSet : Type := mkCmdSet {
  cmdsetobj : option Obj;
  key : string;
  priority : option Z;
  duplicates : bool;
  commands : list Command;
}.

Definition set_key (k : string) (c : CmdSet) : CmdSet :=
  mkCmdSet (cmdsetobj c) k (priority c) (duplicates c) (commands c).
Definition set_priority (p : option Z) (c : CmdSet) : CmdSet :=
  mkCmdSet (cmdsetobj c) (key c) p (duplicates c) (commands c).
Definition set_duplicates (d : bool) (c : CmdSet) : CmdSet :=
  mkCmdSet (cmdsetobj c) (key c) (priority c) d (commands c).
Definition set_commands (l : list Command) (c : CmdSet) : CmdSet :=
  mkCmdSet (cmdsetobj c) (key c) (priority c) (duplicates c) l.

(** What [self.tags.get(category=...)] returns: nothing, one tag, or a list
    of tags. *)
Inductive tags_result : Type :=
| TagsNone
| TagsOne (tag : string)
| TagsMany (tags : list string).

(** Truth value of that result. *)
Definition tags_truthy (r : tags_result) : bool :=
  match r with
  | TagsNone => false
  | TagsOne t => PyStr.truthy t
  | TagsMany l => match l with [] => false | _ => true end
  end.

(** [make_iter(r)]: a single tag becomes a one-element list, a list is
    returned as it is.  The code calls it on truthy results only, so the
    None case is not reached. *)
Definition make_iter (r : tags_result) : list string :=
  match r with
  | TagsNone => []
  | TagsOne t => [t]
  | TagsMany l => l
  end.

(** The tags a result stands for. *)
Definition tags_of (r : tags_result) : list string :=
  match r with
  | TagsNone => []
  | TagsOne t => [t]
  | TagsMany l => l
  end.

(** The rest of evennia, as this module calls it. *)
Class Externals : Type := {
  (* the interpreter's Unicode database: [c.isspace()] and the lowercase of
     a code point *)
  unicode_isspace : N -> bool;
  unicode_tolower : N -> N;
  (* perms.get_owner(obj), behind the [owner] property *)
  get_owner : Obj -> option Obj;
  (* perms.collab_check(actor, target, locks=[...]) *)
  collab_check : Obj -> option Obj -> list string -> bool;
  (* template.core.evtemplate(text, run_as=, me=, this=, how=) *)
  evtemplate : string -> option Obj -> Obj -> Obj -> string -> string;
  (* search_object_by_tag(category=, key=) *)
  search_object_by_tag : string -> string -> list Obj;
  (* obj.location, obj.contents *)
  location : Obj -> option Obj;
  contents : Obj -> list Obj;
  (* obj.access(accessing_obj, access_type) *)
  access : Obj -> Obj -> string -> bool;
  (* obj.get_display_name(looker) *)
  get_display_name : Obj -> Obj -> string;
  (* obj.tags.get(category=) *)
  tags_get : Obj -> string -> tags_result;
  (* CmdSet(cmdsetobj) *)
  CmdSet_init : option Obj -> CmdSet;
  (* CmdSet.add given a command: the commands the set then holds *)
  CmdSet_add_command : CmdSet -> Command -> list Command;
  (* CmdSet.add given what create_exit_cmdset returned, a set or None: the
     commands the set then holds, or the exception raised *)
  CmdSet_add_cmdset : CmdSet -> option CmdSet -> result (list Command);
  (* self.cmdset.add(cmdset) and self.cmdset.remove(cmdset), on the
     addresses the handler holds *)
  handler_add : list nat -> nat -> list nat;
  handler_remove : list nat -> nat -> list nat;
}.

(** Calls the properties below count or inspect. *)
Inductive call_event : Type :=
| CallCollabCheck (actor : Obj) (target : option Obj) (locks : list string)
| CallEvtemplate (text : string) (run_as : option Obj) (me this : Obj) (how : string)
| CallZoneExitCommandset (room : Obj).

(** The mutable state: the calls made so far (oldest first), the CmdSet
    objects built by [zone_exit_commandset] (an object's address is its
    position), and per room [self.ndb.zone_cmdset] and the contents of the
    handler [self.cmdset]. *)
Record Store : Type := mkStore {
  calls : list call_event;
  cmdsets : list CmdSet;
  ndb_zone_cmdset : gmap nat nat;
  cmdset_handler : gmap nat (list nat);
}.

Definition logged (e : call_event) (s : Store) : Store :=
  mkStore (calls s ++ [e]) (cmdsets s) (ndb_zone_cmdset s) (cmdset_handler s).

Definition log (e : call_event) : M Store unit := modify (logged e).

(** [a or b] on optional objects. *)
Definition py_or {A} (a b : option A) : option A :=
  match a with
  | Some x => Some x
  | None => b
  end.

(** [s or ''] *)
Definition or_empty (s : option string) : string :=
  match s with
  | Some t => if PyStr.truthy t then t else EmptyString
  | None => EmptyString
  end.

Definition is_not_None {A} (a : option A) : bool :=
  match a with Some _ => true | None => false end.

Definition nonempty {A} (l : list A) : bool :=
  match l with [] => false | _ => true end.

Section Typeclasses.

Context `{Ext : Externals}.

(** [self.owner] *)
Definition owner (self : Obj) : option Obj := get_owner self.

Definition call_collab_check (actor : Obj) (target : option Obj) (locks : list string)
  : M Store bool :=
  log (CallCollabCheck actor target locks) ;;;
  ret (collab_check actor target locks).

Definition call_evtemplate (text : string) (run_as : option Obj) (me this : Obj)
  (how : string) : M Store string :=
  log (CallEvtemplate text run_as me this how) ;;;
  ret (evtemplate text run_as me this how).

(** *** CollabBase.return_appearance (lines 107-138) *)

(** The body of [for con in visible]. *)
Definition classify (looker : Obj)
  (acc : list string * list string * list string) (con : Obj)
  : list string * list string * list string :=
  let '(exits, users, things) := acc in
  let key := get_display_name con looker in
  if is_not_None (destination con) then (exits ++ [key], users, things)
  else if has_player con then (exits, users ++ ["{c" +:+ key +:+ "{n"], things)
  else (exits, users, things ++ [key]).

Definition visible (self looker : Obj) : list Obj :=
  List.filter (fun con => obj_ne con looker && access con looker "view") (contents self).

Definition header (self looker : Obj) : string :=
  "{c" +:+ get_display_name self looker +:+ "{n" +:+ PyStr.newline.

Definition return_appearance (self : Obj) (looker : option Obj)
  : M Store (option string) :=
  match looker with
  | None => ret None
  | Some looker =>
      let '(exits, users, things) :=
        fold_left (classify looker) (visible self looker) ([], [], []) in
      let string := header self looker in
      desc <- call_evtemplate (or_empty (db_desc self)) (owner self) looker self "desc" ;;
      let string := if PyStr.truthy desc then string +:+ desc else string in
      let string :=
        if nonempty exits
        then string +:+ PyStr.newline +:+ "{wExits:{n " +:+ PyStr.join ", " exits
        else string in
      let string :=
        if nonempty users || nonempty things
        then string +:+ PyStr.newline +:+ "{wYou see:{n " +:+ PyStr.join ", " (users ++ things)
        else string in
      ret (Some string)
  end.

(** *** CollabExit.create_exit_cmdset (lines 192-234) *)

(** [cmd = self.exit_command(key=..., ...)] *)
Definition exit_command (exidbobj : Obj) : Command :=
  mkCommand (PyText.lower unicode_tolower
               (PyText.strip unicode_isspace (db_key exidbobj)))
            (aliases_all exidbobj)
            (locks_str exidbobj)
            false
            (db_destination exidbobj)
            "^$"
            true
            exidbobj.

(** Lines 226-229. *)
Definition exit_priority (self : Obj) : option Z :=
  if is_not_None (wizdb_exit_priority self)
  then Some CollabExit_priority
  else wizdb_exit_priority self.

(** Lines 213-233: the command and the command set that holds it. *)
Definition build_exit_cmdset (self exidbobj : Obj) : CmdSet :=
  let cmd := exit_command exidbobj in
  let exit_cmdset := CmdSet_init None in
  let exit_cmdset := set_key "ExitCmdSet" exit_cmdset in
  let priority := exit_priority self in
  let exit_cmdset := set_priority priority exit_cmdset in
  let exit_cmdset := set_duplicates true exit_cmdset in
  let exit_cmdset := set_commands (CmdSet_add_command exit_cmdset cmd) exit_cmdset in
  exit_cmdset.

Definition create_exit_cmdset (self exidbobj : Obj) (loc : option Obj)
  : M Store (option CmdSet) :=
  let loc := py_or loc (location self) in
  denied <-
    match owner self with
    | Some o =>
        allowed <- call_collab_check o loc ["open_exit"] ;;
        ret (negb allowed)
    | None => ret false
    end ;;
  if denied : bool then ret None
  else ret (Some (build_exit_cmdset self exidbobj)).

(** *** CollabRoom (lines 239-265) *)

(** [cmdset = CmdSet(self)]: a new object in the store. *)
Definition new_CmdSet (c : CmdSet) : M Store nat :=
  fun s => (Ok (length (cmdsets s)),
            mkStore (calls s) (cmdsets s ++ [c]) (ndb_zone_cmdset s) (cmdset_handler s)).

(** [cmdset.add(x)] on the object at [addr]. *)
Definition cmdset_add (addr : nat) (x : option CmdSet) : M Store unit :=
  fun s =>
    match cmdsets s !! addr with
    | Some c =>
        match CmdSet_add_cmdset c x with
        | Ok l => (Ok tt, mkStore (calls s) (<[addr := set_commands l c]> (cmdsets s))
                                  (ndb_zone_cmdset s) (cmdset_handler s))
        | Raise e => (Raise e, s)
        end
    | None => (Raise (AttributeError "add"), s)
    end.

(** [for tag in exit_tags: exits.extend(search_object_by_tag(...))] *)
Definition zone_exits (exit_tags : list string) : list Obj :=
  fold_left (fun exits tag => exits ++ search_object_by_tag "zone_exit" tag)
            exit_tags [].

(** [exit.create_exit_cmdset(exit, location=self)]: the method of the
    object's class; the stock one rejects the keyword. *)
Definition call_create_exit_cmdset (exit self : Obj) : M Store (option CmdSet) :=
  match obj_typeclass exit with
  | DefaultExit =>
      raise (TypeError
               "create_exit_cmdset() got an unexpected keyword argument 'location'")
  | _ => create_exit_cmdset exit exit (Some self)
  end.

(** The body of [for exit in exits]. *)
Definition add_zone_exit (self : Obj) (cmdset : nat) (exit : Obj) : M Store unit :=
  if is_not_None (destination exit) && hasattr_create_exit_cmdset exit
  then r <- call_create_exit_cmdset exit self ;;
       cmdset_add cmdset r
  else ret tt.

Definition zone_exit_commandset (self : Obj) : M Store nat :=
  log (CallZoneExitCommandset self) ;;;
  let exit_tags := tags_get self "zone_room" in
  let exit_tags := if tags_truthy exit_tags then make_iter exit_tags else [] in
  let exits := zone_exits exit_tags in
  cmdset <- new_CmdSet (CmdSet_init (Some self)) ;;
  for_each exits (add_zone_exit self cmdset) ;;;
  ret cmdset.

(** [self.ndb.zone_cmdset]; an attribute that was never set reads None. *)
Definition get_ndb_zone_cmdset (self : Obj) : M Store (option nat) :=
  gets (fun s => ndb_zone_cmdset s !! dbref self).

Definition set_ndb_zone_cmdset (self : Obj) (addr : nat) : M Store unit :=
  modify (fun s => mkStore (calls s) (cmdsets s)
                           (<[dbref self := addr]> (ndb_zone_cmdset s)) (cmdset_handler s)).

Definition del_ndb_zone_cmdset (self : Obj) : M Store unit :=
  modify (fun s => mkStore (calls s) (cmdsets s)
                           (delete (dbref self) (ndb_zone_cmdset s)) (cmdset_handler s)).

Definition handler_update (self : Obj) (f : list nat -> list nat) : M Store unit :=
  modify (fun s => mkStore (calls s) (cmdsets s) (ndb_zone_cmdset s)
                           (<[dbref self := f (default [] (cmdset_handler s !! dbref self))]>
                              (cmdset_handler s))).

(** Truth value of [self.ndb.zone_cmdset]: None is false, a CmdSet
    instance is true. *)
Definition zone_cmdset_truthy (z : option nat) : bool := is_not_None z.

Definition reset_zone_cmdset (self : Obj) : M Store unit :=
  z <- get_ndb_zone_cmdset self ;;
  match z with
  | Some addr =>
      handler_update self (fun h => handler_remove h addr) ;;;
      del_ndb_zone_cmdset self
  | None => ret tt
  end.

Definition at_cmdset_get (self : Obj) : M Store unit :=
  z <- get_ndb_zone_cmdset self ;;
  if negb (zone_cmdset_truthy z)
  then
    addr <- zone_exit_commandset self ;;
    set_ndb_zone_cmdset self addr ;;;
    z <- get_ndb_zone_cmdset self ;;
    match z with
    | Some a => handler_update self (fun h => handler_add h a)
    | None => raise (AttributeError "zone_cmdset")
    end
  else ret tt.

(** Number of times [zone_exit_commandset] ran on [self]. *)
Definition rebuilds (self : Obj) (s : Store) : nat :=
  length (List.filter (fun e => match e with
                           | CallZoneExitCommandset r => (dbref r =? dbref self)%nat
                           | _ => false
                           end) (calls s)).

(** *** The zone aggregate, as the specification words it *)

(** An object found by tag contributes when it has a destination and
    supports building a command set. *)
Definition eligible (o : Obj) : bool :=
  is_not_None (destination o) && hasattr_create_exit_cmdset o.

(** For each tag of the container under [zone_room], the objects indexed
    under [zone_exit] with that tag value; those that contribute. *)
Definition zone_members (self : Obj) : list Obj :=
  List.filter eligible
    (flat_map (search_object_by_tag "zone_exit") (tags_of (tags_get self "zone_room"))).

(** What [create_exit_cmdset(exit, location=self)] yields for a member. *)
Definition exit_result (self exit : Obj) : result (option CmdSet) :=
  match obj_typeclass exit with
  | DefaultExit =>
      Raise (TypeError
               "create_exit_cmdset() got an unexpected keyword argument 'location'")
  | _ =>
      match owner exit with
      | Some o =>
          if collab_check o (Some self) ["open_exit"]
          then Ok (Some (build_exit_cmdset exit exit))
          else Ok None
      | None => Ok (Some (build_exit_cmdset exit exit))
      end
  end.

(** Merging results into a set, one [add] after the other. *)
Fixpoint merged (c : CmdSet) (rs : list (result (option CmdSet))) : result CmdSet :=
  match rs with
  | [] => Ok c
  | Raise e :: _ => Raise e
  | Ok r :: rs' =>
      match CmdSet_add_cmdset c r with
      | Ok l => merged (set_commands l c) rs'
      | Raise e => Raise e
      end
  end.

Definition zone_aggregate (self : Obj) : result CmdSet :=
  merged (CmdSet_init (Some self)) (map (exit_result self) (zone_members self)).

(** The lock checks made while the members are visited. *)
Definition gate_calls (self : Obj) (ms : list Obj) : list call_event :=
  flat_map (fun exit => match obj_typeclass exit, owner exit with
                        | DefaultExit, _ => []
                        | _, Some o => [CallCollabCheck o (Some self) ["open_exit"]]
                        | _, None => []
                        end) ms.


(** Between two stores, no room's cache or handler changed and
    [zone_exit_commandset] did not run. *)
Definition no_rebuild (s s' : Store) : Prop :=
  ndb_zone_cmdset s' = ndb_zone_cmdset s /\
  cmdset_handler s' = cmdset_handler s /\
  forall room, rebuilds room s' = rebuilds room s.

End Typeclasses.

(** Two stored keys that differ only in letter case or in surrounding
    whitespace: each is a core, which neither begins nor ends with
    whitespace, between two runs of whitespace, and the cores have the same
    lowercase form. *)
Definition key_variant {Ext : Externals} (k1 k2 : PyText.text) : Prop :=
  exists a1 c1 b1 a2 c2 b2,
    k1 = a1 ++ c1 ++ b1 /\ k2 = a2 ++ c2 ++ b2 /\
    PyText.blank unicode_isspace a1 = true /\ PyText.blank unicode_isspace b1 = true /\
    PyText.blank unicode_isspace a2 = true /\ PyText.blank unicode_isspace b2 = true /\
    PyText.trimmed unicode_isspace c1 = true /\ PyText.trimmed unicode_isspace c2 = true /\
    PyText.lower unicode_tolower c1 = PyText.lower unicode_tolower c2.

(** ** A small world

    A hall tagged for the zone [alpha], two exits, a statue carrying the
    zone tag, and a yard with three things in it, with simple stand-ins for
    the rest of evennia.  The statements below are instantiated on it. *)

Module Sample.

Definition hall : Obj :=
  mkObj 1 CollabRoom (PyText.of_string "Hall") [] "view:all()" None false None None.
Definition alice : Obj :=
  mkObj 2 CollabCharacter (PyText.of_string "Alice") [] "view:all()" None true None None.
Definition north : Obj :=
  mkObj 3 CollabExit (160%N :: PyText.of_string " North ") ["n"] "traverse:all()" (Some 1) false None (Some 5%Z).
Definition south : Obj :=
  mkObj 4 CollabExit (PyText.of_string "NORTH") [] "traverse:all()" (Some 1) false None None.
Definition statue : Obj :=
  mkObj 5 CollabObject (PyText.of_string "statue") [] "view:all()" None false None None.
Definition ferry : Obj :=
  mkObj 6 CollabExit (PyText.of_string "ferry") [] "traverse:all()" (Some 1) true None None.
Definition yard : Obj :=
  mkObj 7 CollabRoom (PyText.of_string "Yard") [] "view:all()" None false (Some "A yard.") None.

(** A part of the Unicode database of Python 2.7: the whitespace code
    points, and the lowercase of the ASCII and Latin-1 capitals. *)
Definition isspace (c : N) : bool :=
  ((9 <=? c) && (c <=? 13) || (28 <=? c) && (c <=? 32) || (c =? 133) || (c =? 160)
   || (c =? 5760) || (c =? 6158) || (8192 <=? c) && (c <=? 8202) || (c =? 8232)
   || (c =? 8233) || (c =? 8239) || (c =? 8287) || (c =? 12288))%N.

Definition tolower (c : N) : N :=
  if ((65 <=? c) && (c <=? 90) || (192 <=? c) && (c <=? 222) && negb (c =? 215))%N
  then (c + 32)%N else c.

(** [south] is owned by [alice], who is denied everything; nothing else is
    owned.  The template evaluator returns its text, and an object is
    displayed under its key.  The key of [north] begins with a no-break
    space. *)
Definition world : Externals := {|
  unicode_isspace := isspace;
  unicode_tolower := tolower;
  get_owner o := if (dbref o =? 4)%nat then Some alice else None;
  collab_check _ _ _ := false;
  evtemplate text _ _ _ _ := text;
  search_object_by_tag category tag :=
    if String.eqb category "zone_exit" && String.eqb tag "alpha"
    then [north; statue] else [];
  location _ := None;
  contents o := if (dbref o =? 7)%nat then [ferry; alice; statue] else [];
  access _ _ _ := true;
  get_display_name o _ := PyText.to_string (db_key o);
  tags_get o category :=
    if (dbref o =? 1)%nat && String.eqb category "zone_room"
    then TagsOne "alpha" else TagsNone;
  CmdSet_init o := mkCmdSet o "Unnamed CmdSet" (Some 0%Z) false [];
  CmdSet_add_command c cmd := commands c ++ [cmd];
  CmdSet_add_cmdset c x :=
    match x with
    | Some x => Ok (commands c ++ commands x)
    | None => Raise (AttributeError "'NoneType' object has no attribute 'obj'")
    end;
  handler_add h a := h ++ [a];
  handler_remove h a := List.filter (fun b => negb (b =? a)%nat) h;
|}.

Definition empty_store : Store := mkStore [] [] ∅ ∅.

Definition no_instances : Descriptors.Instances := Descriptors.mkInstances ∅ [].

End Sample.

(** *** CollabBase.check_protected (lines 92-97) *)

Section CheckProtected.

Import Descriptors.

(** Reading an attribute through a [DbHolder]: the value its namespace
    stores under the name. *)
Variable holder_read : DbHolder -> string -> value.

(** [h.<name>] for what the handle property returned. *)
Definition holder_attribute (h : value) (name : string) : M Instances value :=
  match h with
  | VHolder addr =>
      fun s => match holders s !! addr with
               | Some d => (Ok (holder_read d name), s)
               | None => (Raise (AttributeError name), s)
               end
  | _ => raise (AttributeError name)
  end.

Definition check_protected (self : nat) : M Instances value :=
  imhdb <- get_attribute self "imhdb" ;;
  holder_attribute imhdb "protected".

End CheckProtected.

(** The stand-in of the sample world for reading through a holder: only
    entity 1 is protected. *)
Definition sample_holder_read (d : Descriptors.DbHolder) (name : string)
  : Descriptors.value :=
  if (Descriptors.holder_obj d =? 1)%nat && String.eqb name "protected"
  then Descriptors.VInt 1 else Descriptors.VNone.

(** Variants of the sample world: what the zone tag [alpha] finds, what
    the yard holds and who may view what are given; the rest is as in
    [Sample.world]. *)
Definition sample_variant (found inside : list Obj) (can_view : Obj -> bool)
  : Externals := {|
  unicode_isspace := @unicode_isspace Sample.world;
  unicode_tolower := @unicode_tolower Sample.world;
  get_owner := @get_owner Sample.world;
  collab_check := @collab_check Sample.world;
  evtemplate := @evtemplate Sample.world;
  search_object_by_tag category tag :=
    if String.eqb category "zone_exit" && String.eqb tag "alpha"
    then found else [];
  location := @location Sample.world;
  contents o := if (dbref o =? 7)%nat then inside else [];
  access o _ _ := can_view o;
  get_display_name := @get_display_name Sample.world;
  tags_get := @tags_get Sample.world;
  CmdSet_init := @CmdSet_init Sample.world;
  CmdSet_add_command := @CmdSet_add_command Sample.world;
  CmdSet_add_cmdset := @CmdSet_add_cmdset Sample.world;
  handler_add := @handler_add Sample.world;
  handler_remove := @handler_remove Sample.world;
|}.

(** The zone tag now finds the ferry. *)
Definition sample_world2 : Externals :=
  sample_variant [Sample.ferry] [] (fun _ => true).

(** The zone tag finds [south], whose owner is denied. *)
Definition sample_world3 : Externals :=
  sample_variant [Sample.north; Sample.south] [] (fun _ => true).

(** The yard holds alice and a statue that nobody may view. *)
Definition sample_world4 : Externals :=
  sample_variant [] [Sample.alice; Sample.statue] (fun o => negb (dbref o =? 5)%nat).

(** The zone tag finds a stock exit. *)
Definition sample_gate : Obj :=
  mkObj 8 DefaultExit (PyText.of_string "gate") [] "traverse:all()" (Some 1)
        false None None.

Definition sample_world6 : Externals :=
  sample_variant [sample_gate; Sample.north] [] (fun _ => true).

(** The hall carries a single empty tag, under which the tag index finds
    [north]. *)
Definition sample_world5 : Externals := {|
  unicode_isspace := @unicode_isspace Sample.world;
  unicode_tolower := @unicode_tolower Sample.world;
  get_owner := @get_owner Sample.world;
  collab_check := @collab_check Sample.world;
  evtemplate := @evtemplate Sample.world;
  search_object_by_tag category tag :=
    if String.eqb category "zone_exit" && String.eqb tag EmptyString
    then [Sample.north] else [];
  location := @location Sample.world;
  contents := @contents Sample.world;
  access := @access Sample.world;
  get_display_name := @get_display_name Sample.world;
  tags_get o category :=
    if (dbref o =? 1)%nat && String.eqb category "zone_room"
    then TagsOne EmptyString else TagsNone;
  CmdSet_init := @CmdSet_init Sample.world;
  CmdSet_add_command := @CmdSet_add_command Sample.world;
  CmdSet_add_cmdset := @CmdSet_add_cmdset Sample.world;
  handler_add := @handler_add Sample.world;
  handler_remove := @handler_remove Sample.world;
|}.

(** A recorded lock check made for a zone: 'open_exit' against the
    container. *)
Definition is_zone_check (self : Obj) (e : call_event) : Prop :=
  match e with
  | CallCollabCheck _ target locks => target = Some self /\ locks = ["open_exit"]
  | _ => False
  end.

(** * Properties *)

(** ** Text *)

Section Text.

Variable isspace : N -> bool.

Lemma lstrip_blank_app w t :
  PyText.blank isspace w = true ->
  PyText.lstrip isspace (w ++ t) = PyText.lstrip isspace t.
Proof.
  induction w as [|c w IH]; simpl; [reflexivity|].
  intros [Hc Hw]%andb_prop. rewrite Hc. auto.
Qed.

Lemma rstrip_blank w :
  PyText.blank isspace w = true -> PyText.rstrip isspace w = [].
Proof.
  induction w as [|c w IH]; simpl; [reflexivity|].
  intros [Hc Hw]%andb_prop. now rewrite (IH Hw), Hc.
Qed.

Lemma rstrip_app_blank t w :
  PyText.blank isspace w = true ->
  PyText.rstrip isspace (t ++ w) = PyText.rstrip isspace t.
Proof.
  intros Hw. induction t as [|c t IH]; simpl.
  - now apply rstrip_blank.
  - now rewrite IH.
Qed.

Lemma rstrip_last t d :
  t <> [] -> isspace (List.last t d) = false -> PyText.rstrip isspace t = t.
Proof.
  induction t as [|c t IH]; [congruence|]. intros _ Hl.
  destruct t as [|c' t].
  - simpl in *. now rewrite Hl.
  - change (List.last (c :: c' :: t) d) with (List.last (c' :: t) d) in Hl.
    change (PyText.rstrip isspace (c :: c' :: t))
      with (match PyText.rstrip isspace (c' :: t) with
            | [] => if isspace c then [] else [c]
            | r => c :: r
            end).
    now rewrite IH.
Qed.

(** Stripping a trimmed core between two runs of whitespace gives the
    core back. *)
Lemma strip_padding a c b :
  PyText.blank isspace a = true -> PyText.blank isspace b = true ->
  PyText.trimmed isspace c = true ->
  PyText.strip isspace (a ++ c ++ b) = c.
Proof.
  intros Ha Hb Hc. unfold PyText.strip. rewrite lstrip_blank_app by exact Ha.
  destruct c as [|x c].
  - simpl. rewrite rstrip_blank; [reflexivity|].
    clear -Hb. induction b as [|y b IH]; simpl in *; [reflexivity|].
    apply andb_prop in Hb as [Hy Hb]. rewrite Hy. auto.
  - unfold PyText.trimmed in Hc. apply andb_prop in Hc as [Hx Hl].
    apply negb_true_iff in Hx, Hl.
    change ((x :: c) ++ b) with (x :: (c ++ b)).
    simpl PyText.lstrip. rewrite Hx.
    change (x :: c ++ b) with ((x :: c) ++ b).
    rewrite rstrip_app_blank by exact Hb.
    apply (rstrip_last _ x); [discriminate | exact Hl].
Qed.

End Text.

(** ** Running a computation *)

Lemma bind_ok {S A B} (c : M S A) (k : A -> M S B) s a s' :
  c s = (Ok a, s') -> bind c k s = k a s'.
Proof. intros H. unfold bind. now rewrite H. Qed.

Lemma bind_raise {S A B} (c : M S A) (k : A -> M S B) s e s' :
  c s = (Raise e, s') -> bind c k s = (Raise e, s').
Proof. intros H. unfold bind. now rewrite H. Qed.

(** ** The exit command set factory *)

Section ExitFactory.

Context `{Ext : Externals}.

(** The three ways through the gate of [create_exit_cmdset]. *)
Lemma create_exit_cmdset_unowned self ex loc s :
  owner self = None ->
  create_exit_cmdset self ex loc s = (Ok (Some (build_exit_cmdset self ex)), s).
Proof.
  intros Ho. unfold create_exit_cmdset, bind. rewrite Ho. reflexivity.
Qed.

Lemma create_exit_cmdset_owned self ex loc s o :
  owner self = Some o ->
  create_exit_cmdset self ex loc s =
    (if collab_check o (py_or loc (location self)) ["open_exit"]
     then Ok (Some (build_exit_cmdset self ex)) else Ok None,
     logged (CallCollabCheck o (py_or loc (location self)) ["open_exit"]) s).
Proof.
  intros Ho. unfold create_exit_cmdset, bind. rewrite Ho.
  unfold call_collab_check, bind, log, modify, ret. simpl.
  destruct (collab_check o _ _); reflexivity.
Qed.

Lemma create_exit_cmdset_returns self ex loc s cs s' :
  create_exit_cmdset self ex loc s = (Ok (Some cs), s') ->
  cs = build_exit_cmdset self ex.
Proof.
  destruct (owner self) as [o|] eqn:Ho.
  - rewrite (create_exit_cmdset_owned _ _ _ _ _ Ho).
    destruct (collab_check o _ _); congruence.
  - rewrite (create_exit_cmdset_unowned _ _ _ _ Ho). congruence.
Qed.

Lemma create_exit_cmdset_total self ex loc s :
  exists r s', create_exit_cmdset self ex loc s = (Ok r, s').
Proof.
  destruct (owner self) as [o|] eqn:Ho.
  - rewrite (create_exit_cmdset_owned _ _ _ _ _ Ho).
    destruct (collab_check o _ _); eauto.
  - rewrite (create_exit_cmdset_unowned _ _ _ _ Ho). eauto.
Qed.

(** C1 (as the code behaves): whenever [create_exit_cmdset] returns a
    command set, its priority is the class default -30 when the override
    [wizdb.exit_priority] is present, and None (the absent override itself)
    when it is absent: the two branches of lines 226-229 are exchanged with
    respect to the stated rule. *)
Theorem create_exit_cmdset_priority self ex loc s cs s' :
  create_exit_cmdset self ex loc s = (Ok (Some cs), s') ->
  priority cs = match wizdb_exit_priority self with
                | Some _ => Some (-30)%Z
                | None => None
                end.
Proof.
  intros ->%create_exit_cmdset_returns.
  unfold build_exit_cmdset, exit_priority. simpl.
  destruct (wizdb_exit_priority self); reflexivity.
Qed.

(** C3: an owned exit whose owner is denied [open_exit] on the location
    (the argument, or the exit's own location when none is given) gets no
    command set, and no exception; an unowned exit gets a command set and
    the lock check is not called at all (the store, and so the record of
    calls, is unchanged). *)
Theorem create_exit_cmdset_gate self ex loc s :
  (forall o, owner self = Some o ->
        collab_check o (py_or loc (location self)) ["open_exit"] = false ->
        fst (create_exit_cmdset self ex loc s) = Ok None) /\
  (owner self = None ->
        exists cs, create_exit_cmdset self ex loc s = (Ok (Some cs), s) /\
                   calls (snd (create_exit_cmdset self ex loc s)) = calls s).
Proof.
  split.
  - intros o Ho Hd. rewrite (create_exit_cmdset_owned _ _ _ _ _ Ho), Hd. reflexivity.
  - intros Ho. rewrite (create_exit_cmdset_unowned _ _ _ _ Ho). eauto.
Qed.

End ExitFactory.

(** C9: the movement command is keyed by [db_key.strip().lower()], so two
    exits whose stored keys differ only in case or surrounding whitespace
    get commands with the same key. *)
Theorem exit_command_key_normalized `{Ext : Externals} ex1 ex2 :
  key_variant (db_key ex1) (db_key ex2) ->
  cmd_key (exit_command ex1) =
    PyText.lower unicode_tolower (PyText.strip unicode_isspace (db_key ex1)) /\
  cmd_key (exit_command ex2) =
    PyText.lower unicode_tolower (PyText.strip unicode_isspace (db_key ex2)) /\
  cmd_key (exit_command ex1) = cmd_key (exit_command ex2).
Proof.
  intros (a1 & c1 & b1 & a2 & c2 & b2 & E1 & E2 & Ha1 & Hb1 & Ha2 & Hb2 & T1 & T2 & Hc).
  split; [reflexivity|]. split; [reflexivity|].
  simpl. rewrite E1, E2, !strip_padding by assumption. exact Hc.
Qed.

(** ** The appearance hook *)

Section Appearance.

Context `{Ext : Externals}.

(** The loop of lines 121-128 sorts the visible items into the three
    groups by destination first. *)
Lemma classify_fold looker l exits users things :
  fold_left (classify looker) l (exits, users, things) =
    (exits ++ map (fun con => get_display_name con looker)
                  (List.filter (fun con => is_not_None (destination con)) l),
     users ++ map (fun con => "{c" +:+ get_display_name con looker +:+ "{n")
                  (List.filter (fun con => negb (is_not_None (destination con))
                                           && has_player con) l),
     things ++ map (fun con => get_display_name con looker)
                   (List.filter (fun con => negb (is_not_None (destination con))
                                            && negb (has_player con)) l)).
Proof.
  revert exits users things.
  induction l as [|con l IH]; intros exits users things; simpl.
  - now rewrite !app_nil_r.
  - destruct (is_not_None (destination con)); simpl.
    + rewrite IH, <- app_assoc. reflexivity.
    + destruct (has_player con); simpl; rewrite IH, <- app_assoc; reflexivity.
Qed.

(** C6: for every container and observer, the description in the text
    [return_appearance] returns is the template evaluator's result for the
    raw description text (or the empty string) with the container's owner
    as [run_as], the observer as [me], the container as [this] and the
    mode 'desc'; that one evaluation is the only one made, and [run_as] is
    the owner whoever the observer is. *)
Theorem return_appearance_runs_as_owner self looker s :
  let desc := evtemplate (or_empty (db_desc self)) (get_owner self) looker self "desc" in
  let groups := fold_left (classify looker) (visible self looker) ([], [], []) in
  let exits := fst (fst groups) in
  let seen := snd (fst groups) ++ snd groups in
  let string := header self looker in
  let string := if PyStr.truthy desc then string +:+ desc else string in
  let string :=
    if nonempty exits
    then string +:+ PyStr.newline +:+ "{wExits:{n " +:+ PyStr.join ", " exits
    else string in
  let string :=
    if nonempty seen
    then string +:+ PyStr.newline +:+ "{wYou see:{n " +:+ PyStr.join ", " seen
    else string in
  return_appearance self (Some looker) s =
    (Ok (Some string),
     logged (CallEvtemplate (or_empty (db_desc self)) (get_owner self)
                            looker self "desc") s).
Proof.
  unfold return_appearance.
  destruct (fold_left _ _ _) as [[exits users] things]. simpl.
  unfold bind, call_evtemplate, bind, log, modify, ret, owner. simpl.
  do 3 f_equal.
  destruct users, things; reflexivity.
Qed.

(** C7: with no contents and a description that evaluates to the empty
    string, the result is the header line alone. *)
Theorem return_appearance_empty_room self looker s :
  contents self = [] ->
  evtemplate (or_empty (db_desc self)) (owner self) looker self "desc" = EmptyString ->
  fst (return_appearance self (Some looker) s) =
    Ok (Some ("{c" +:+ get_display_name self looker +:+ "{n" +:+ PyStr.newline)).
Proof.
  intros Hc Hd. unfold return_appearance, visible. rewrite Hc. simpl.
  unfold bind, call_evtemplate, bind, log, modify, ret. simpl.
  rewrite Hd. reflexivity.
Qed.

(** C10: in the text [return_appearance] returns, the groups are decided
    by destination first: the 'Exits' line lists every visible item that
    has a destination, with or without a controlling player; the occupants
    and the plain objects of the 'You see' line are taken among the visible
    items without destination, and only those are asked [has_player]. *)
Theorem return_appearance_groups self looker s :
  let name := fun con => get_display_name con looker in
  let without_destination := fun con => negb (is_not_None (destination con)) in
  let exits :=
    map name (List.filter (fun con => is_not_None (destination con))
                          (visible self looker)) in
  let users :=
    map (fun con => "{c" +:+ name con +:+ "{n")
        (List.filter (fun con => without_destination con && has_player con)
                     (visible self looker)) in
  let things :=
    map name (List.filter (fun con => without_destination con && negb (has_player con))
                          (visible self looker)) in
  let desc := evtemplate (or_empty (db_desc self)) (owner self) looker self "desc" in
  let string := header self looker in
  let string := if PyStr.truthy desc then string +:+ desc else string in
  let string :=
    if nonempty exits
    then string +:+ PyStr.newline +:+ "{wExits:{n " +:+ PyStr.join ", " exits
    else string in
  let string :=
    if nonempty users || nonempty things
    then string +:+ PyStr.newline +:+ "{wYou see:{n " +:+ PyStr.join ", " (users ++ things)
    else string in
  fst (return_appearance self (Some looker) s) = Ok (Some string).
Proof.
  unfold return_appearance. rewrite classify_fold. reflexivity.
Qed.

End Appearance.

(** ** The zone command set *)

Section Zone.

Context `{Ext : Externals}.

Lemma zone_exits_flat_map tags :
  zone_exits tags = flat_map (search_object_by_tag "zone_exit") tags.
Proof.
  unfold zone_exits.
  enough (forall acc, fold_left (fun exits tag => exits ++ search_object_by_tag "zone_exit" tag)
                                tags acc
                      = acc ++ flat_map (search_object_by_tag "zone_exit") tags) as H
      by apply (H []).
  induction tags as [|t tags IH]; intros acc; simpl.
  - now rewrite app_nil_r.
  - now rewrite IH, app_assoc.
Qed.

Lemma exit_tags_of_result r :
  r <> TagsOne EmptyString ->
  (if tags_truthy r then make_iter r else []) = tags_of r.
Proof.
  destruct r as [|t|l]; simpl; try reflexivity.
  - destruct t; [congruence | reflexivity].
  - destruct l; reflexivity.
Qed.

Lemma call_create_exit_cmdset_run self exit s :
  call_create_exit_cmdset exit self s =
    (exit_result self exit,
     mkStore (calls s ++ gate_calls self [exit]) (cmdsets s)
             (ndb_zone_cmdset s) (cmdset_handler s)).
Proof.
  unfold call_create_exit_cmdset, exit_result, gate_calls. simpl.
  destruct (obj_typeclass exit);
    try (destruct (owner exit) as [o|] eqn:Ho;
         [ rewrite (create_exit_cmdset_owned _ _ _ _ _ Ho); simpl;
           destruct (collab_check o _ _); reflexivity
         | rewrite (create_exit_cmdset_unowned _ _ _ _ Ho), app_nil_r;
           now destruct s ]).
  unfold raise. rewrite app_nil_r. now destruct s.
Qed.

Lemma gate_calls_app self l1 l2 :
  gate_calls self (l1 ++ l2) = gate_calls self l1 ++ gate_calls self l2.
Proof. unfold gate_calls. apply flat_map_app. Qed.

Lemma cmdset_add_last cs c r log0 ndb h :
  cmdset_add (length cs) r (mkStore log0 (cs ++ [c]) ndb h) =
    match CmdSet_add_cmdset c r with
    | Ok l => (Ok tt, mkStore log0 (cs ++ [set_commands l c]) ndb h)
    | Raise e => (Raise e, mkStore log0 (cs ++ [c]) ndb h)
    end.
Proof.
  unfold cmdset_add. simpl.
  rewrite list_lookup_middle by reflexivity.
  destruct (CmdSet_add_cmdset c r); [|reflexivity].
  replace (length cs) with (length cs + 0) at 1 by lia.
  now rewrite insert_app_r.
Qed.

Lemma add_zone_exit_last self exit cs c log0 ndb h :
  add_zone_exit self (length cs) exit (mkStore log0 (cs ++ [c]) ndb h) =
    if eligible exit
    then match exit_result self exit with
         | Ok r =>
             match CmdSet_add_cmdset c r with
             | Ok l => (Ok tt, mkStore (log0 ++ gate_calls self [exit])
                                       (cs ++ [set_commands l c]) ndb h)
             | Raise e => (Raise e, mkStore (log0 ++ gate_calls self [exit])
                                            (cs ++ [c]) ndb h)
             end
         | Raise e => (Raise e, mkStore (log0 ++ gate_calls self [exit])
                                        (cs ++ [c]) ndb h)
         end
    else (Ok tt, mkStore log0 (cs ++ [c]) ndb h).
Proof.
  unfold add_zone_exit, eligible.
  destruct (is_not_None (destination exit) && hasattr_create_exit_cmdset exit);
    [|reflexivity].
  unfold bind at 1. rewrite call_create_exit_cmdset_run. simpl.
  destruct (exit_result self exit) as [r|e]; [apply cmdset_add_last | reflexivity].
Qed.

(** The second loop of [zone_exit_commandset], run on a store whose last
    object is the aggregate. *)
Lemma zone_loop self exits : forall c cs log0 ndb h,
  match merged c (map (exit_result self) (List.filter eligible exits)) with
  | Ok c' =>
      for_each exits (add_zone_exit self (length cs)) (mkStore log0 (cs ++ [c]) ndb h) =
        (Ok tt, mkStore (log0 ++ gate_calls self (List.filter eligible exits))
                        (cs ++ [c']) ndb h)
  | Raise e =>
      fst (for_each exits (add_zone_exit self (length cs))
                    (mkStore log0 (cs ++ [c]) ndb h)) = Raise e
  end.
Proof.
  induction exits as [|exit exits IH]; intros c cs log0 ndb h; simpl.
  - now rewrite app_nil_r.
  - pose proof (add_zone_exit_last self exit cs c log0 ndb h) as Hstep.
    destruct (eligible exit); simpl.
    + destruct (exit_result self exit) as [r|e];
        [|now rewrite (bind_raise _ _ _ _ _ Hstep)].
      destruct (CmdSet_add_cmdset c r) as [l|e].
      * rewrite (bind_ok _ _ _ _ _ Hstep).
        specialize (IH (set_commands l c) cs (log0 ++ gate_calls self [exit]) ndb h).
        destruct (merged (set_commands l c) _) as [c'|e]; [|exact IH].
        rewrite IH, <- app_assoc.
        do 3 f_equal. unfold gate_calls. simpl. now rewrite app_nil_r.
      * now rewrite (bind_raise _ _ _ _ _ Hstep).
    + rewrite (bind_ok _ _ _ _ _ Hstep). apply IH.
Qed.

(** What [zone_exit_commandset] does when the merge succeeds, and that it
    raises when the merge raises. *)
Lemma zone_exit_commandset_run self s :
  tags_get self "zone_room" <> TagsOne EmptyString ->
  match zone_aggregate self with
  | Ok c =>
      zone_exit_commandset self s =
        (Ok (length (cmdsets s)),
         mkStore (calls s ++ [CallZoneExitCommandset self]
                          ++ gate_calls self (zone_members self))
                 (cmdsets s ++ [c]) (ndb_zone_cmdset s) (cmdset_handler s))
  | Raise e => fst (zone_exit_commandset self s) = Raise e
  end.
Proof.
  intros Ht. unfold zone_aggregate, zone_members, zone_exit_commandset.
  rewrite (exit_tags_of_result _ Ht), zone_exits_flat_map.
  set (exits := flat_map _ _).
  erewrite bind_ok by reflexivity.
  erewrite bind_ok by reflexivity.
  pose proof (zone_loop self exits (CmdSet_init (Some self)) (cmdsets s)
                (calls s ++ [CallZoneExitCommandset self])
                (ndb_zone_cmdset s) (cmdset_handler s)) as H.
  simpl.
  destruct (merged _ _) as [c|e].
  - erewrite bind_ok by exact H. unfold ret. now rewrite <- app_assoc.
  - unfold bind.
    destruct (for_each _ _ _) as [[|e'] s']; simpl in *; congruence.
Qed.

(** C4 (amended): for a container whose 'zone_room' tags are not a single
    empty tag, the aggregate built by [zone_exit_commandset] is a new
    command set for the container into which, for each tag of the container
    under 'zone_room' and each object indexed under 'zone_exit' with that
    tag that has a destination and a [create_exit_cmdset] method, the
    result of [create_exit_cmdset(object, location=container)] has been
    merged, in that order; other objects contribute nothing.  If one of the
    calls or merges raises (the stock method of a DefaultExit rejects the
    [location] keyword), so does [zone_exit_commandset]. *)
Theorem zone_exit_commandset_aggregate self s :
  tags_get self "zone_room" <> TagsOne EmptyString ->
  match zone_aggregate self with
  | Ok c =>
      exists s', zone_exit_commandset self s = (Ok (length (cmdsets s)), s') /\
                 cmdsets s' = cmdsets s ++ [c]
  | Raise e => fst (zone_exit_commandset self s) = Raise e
  end.
Proof.
  intros Ht. pose proof (zone_exit_commandset_run self s Ht) as H.
  destruct (zone_aggregate self); [|exact H].
  eexists. split; [exact H | reflexivity].
Qed.

End Zone.

(** ** The zone cache *)

Section ZoneCache.

Context `{Ext : Externals}.

Lemma no_rebuild_refl s : no_rebuild s s.
Proof. now repeat split. Qed.

Lemma no_rebuild_trans s1 s2 s3 :
  no_rebuild s1 s2 -> no_rebuild s2 s3 -> no_rebuild s1 s3.
Proof.
  intros (A1 & B1 & C1) (A2 & B2 & C2).
  split; [congruence|]. split; [congruence|].
  intros room. now rewrite C2, C1.
Qed.

Lemma rebuilds_logged room e s :
  rebuilds room (logged e s) =
    rebuilds room s +
    match e with
    | CallZoneExitCommandset r => if (dbref r =? dbref room)%nat then 1 else 0
    | _ => 0
    end.
Proof.
  unfold rebuilds, logged. simpl.
  rewrite List.filter_app, length_app. simpl.
  destruct e as [| |r]; simpl; try reflexivity.
  destruct (dbref r =? dbref room)%nat; reflexivity.
Qed.

Lemma create_exit_cmdset_no_rebuild self ex loc s r s' :
  create_exit_cmdset self ex loc s = (r, s') -> no_rebuild s s'.
Proof.
  destruct (owner self) as [o|] eqn:Ho.
  - rewrite (create_exit_cmdset_owned _ _ _ _ _ Ho). intros [= _ <-].
    repeat split. intros room. rewrite rebuilds_logged. lia.
  - rewrite (create_exit_cmdset_unowned _ _ _ _ Ho). intros [= _ <-].
    apply no_rebuild_refl.
Qed.

Lemma cmdset_add_no_rebuild addr x s r s' :
  cmdset_add addr x s = (r, s') -> no_rebuild s s'.
Proof.
  unfold cmdset_add.
  destruct (cmdsets s !! addr) as [c|]; [destruct (CmdSet_add_cmdset c x)|];
    intros [= _ <-]; now repeat split.
Qed.

Lemma call_create_exit_cmdset_no_rebuild self exit s r s' :
  call_create_exit_cmdset exit self s = (r, s') -> no_rebuild s s'.
Proof.
  unfold call_create_exit_cmdset.
  destruct (obj_typeclass exit); try apply create_exit_cmdset_no_rebuild.
  intros [= _ <-]. apply no_rebuild_refl.
Qed.

Lemma add_zone_exit_no_rebuild self addr exit s r s' :
  add_zone_exit self addr exit s = (r, s') -> no_rebuild s s'.
Proof.
  unfold add_zone_exit.
  destruct (_ && _).
  - unfold bind.
    destruct (call_create_exit_cmdset exit self s) as [[x|e] s1] eqn:E1.
    + intros E2. eapply no_rebuild_trans.
      * eapply call_create_exit_cmdset_no_rebuild, E1.
      * eapply cmdset_add_no_rebuild, E2.
    + intros [= _ <-]. eapply call_create_exit_cmdset_no_rebuild, E1.
  - intros [= _ <-]. apply no_rebuild_refl.
Qed.

Lemma for_each_no_rebuild {A} (l : list A) (body : A -> M Store unit) :
  (forall x s r s', body x s = (r, s') -> no_rebuild s s') ->
  forall s r s', for_each l body s = (r, s') -> no_rebuild s s'.
Proof.
  intros Hb. induction l as [|x l IH]; intros s r s'; simpl.
  - intros [= _ <-]. apply no_rebuild_refl.
  - unfold bind. destruct (body x s) as [[[]|e] s1] eqn:E1.
    + intros E2. eapply no_rebuild_trans; [eapply Hb, E1 | eapply IH, E2].
    + intros [= _ <-]. eapply Hb, E1.
Qed.

(** One run of [zone_exit_commandset] counts as one rebuild of [self] and
    leaves every cache and handler as it was. *)
Lemma zone_exit_commandset_rebuilds self s r s' :
  zone_exit_commandset self s = (r, s') ->
  ndb_zone_cmdset s' = ndb_zone_cmdset s /\
  cmdset_handler s' = cmdset_handler s /\
  rebuilds self s' = rebuilds self s + 1.
Proof.
  unfold zone_exit_commandset.
  erewrite bind_ok by reflexivity.
  erewrite bind_ok by reflexivity.
  set (s0 := mkStore _ _ _ _). set (exits := zone_exits _).
  assert (rebuilds self s0 = rebuilds self s + 1) as H0.
  { pose proof (rebuilds_logged self (CallZoneExitCommandset self) s) as H.
    cbv iota beta in H. rewrite Nat.eqb_refl in H. exact H. }
  unfold bind.
  destruct (for_each exits _ s0) as [[[]|e] s1] eqn:E;
    apply (for_each_no_rebuild _ _ (add_zone_exit_no_rebuild self _)) in E;
    destruct E as (A & B & C); intros [= _ <-];
    (split; [exact A | split; [exact B | now rewrite C]]).
Qed.

Lemma at_cmdset_get_hit self s addr :
  ndb_zone_cmdset s !! dbref self = Some addr ->
  at_cmdset_get self s = (Ok tt, s).
Proof.
  intros H. unfold at_cmdset_get, get_ndb_zone_cmdset, gets, bind.
  now rewrite H.
Qed.


(** A miss runs [zone_exit_commandset] once and caches the object it
    returned. *)
Lemma at_cmdset_get_miss self s s1 :
  ndb_zone_cmdset s !! dbref self = None ->
  at_cmdset_get self s = (Ok tt, s1) ->
  exists s', zone_exit_commandset self s = (Ok (length (cmdsets s)), s') /\
             ndb_zone_cmdset s1 = <[dbref self := length (cmdsets s)]> (ndb_zone_cmdset s) /\
             cmdsets s1 = cmdsets s' /\
             rebuilds self s1 = rebuilds self s + 1.
Proof.
  intros Hn. unfold at_cmdset_get.
  erewrite bind_ok by (unfold get_ndb_zone_cmdset, gets; now rewrite Hn).
  simpl. unfold bind at 1.
  destruct (zone_exit_commandset self s) as [[addr|e] s'] eqn:E; [|discriminate].
  assert (addr = length (cmdsets s)) as ->.
  { revert E. unfold zone_exit_commandset.
    erewrite bind_ok by reflexivity. erewrite bind_ok by reflexivity.
    unfold bind. destruct (for_each _ _ _) as [[[]|?] ?]; now intros [= <- _]. }
  destruct (zone_exit_commandset_rebuilds _ _ _ _ E) as (A & B & C).
  erewrite bind_ok by reflexivity.
  erewrite bind_ok
    by (unfold get_ndb_zone_cmdset, gets; simpl; now rewrite lookup_insert_eq).
  intros [= <-]. exists s'. simpl. rewrite A.
  repeat split. unfold rebuilds in *. simpl. exact C.
Qed.

(** [reset_zone_cmdset] leaves no cached aggregate, so that the next
    [at_cmdset_get] builds one. *)
Lemma reset_zone_cmdset_clears self s :
  fst (reset_zone_cmdset self s) = Ok tt /\
  ndb_zone_cmdset (snd (reset_zone_cmdset self s)) !! dbref self = None.
Proof.
  unfold reset_zone_cmdset.
  erewrite bind_ok by reflexivity.
  destruct (ndb_zone_cmdset s !! dbref self) as [addr|] eqn:E.
  - erewrite bind_ok by reflexivity. simpl. split; [reflexivity|].
    apply lookup_delete_eq.
  - simpl. now split.
Qed.


End ZoneCache.

(** ** The namespace descriptors *)

Section Namespaces.

Import Descriptors.

(** Each namespace label names the property made from its own
    descriptors. *)
Lemma class_lookup_label :
  Forall (fun key =>
            class_lookup CollabBase (label_of key) =
              Some (Property (mkProperty (getter key (key +:+ "attributes"))
                                         (setter (label_of key))
                                         (deleter (label_of key)))))
         initializers.
Proof. repeat constructor. Qed.

Lemma getter_run key self s :
  call (getter key (key +:+ "attributes")) [VObject self] s =
    match attrs s !! (self, holder_attr key) with
    | Some v => (Ok v, s)
    | None =>
        (Ok (VHolder (length (holders s))),
         mkInstances (<[(self, holder_attr key) := VHolder (length (holders s))]>
                        (with_handler key self (attrs s)))
                     (holders s ++ [mkDbHolder self (key +:+ "attributes")
                                               (key +:+ "attributes")]))
    end.
Proof.
  unfold call. simpl. unfold try_except_AttributeError at 1. unfold getattr at 1.
  destruct (attrs s !! (self, holder_attr key)) as [v|] eqn:E; [reflexivity|].
  unfold bind, new_DbHolder, bind, lazy_get, try_except_AttributeError, getattr,
    setattr, modify, call, with_handler. simpl.
  destruct (attrs s !! (self, key +:+ "attributes")) as [w|] eqn:E2; simpl;
    now rewrite lookup_insert_eq.
Qed.

(** C5 (as the code behaves): for each of the six namespaces, assigning
    to the handle raises, but the exception is the TypeError of calling
    the one-parameter [setter] with two arguments, and its message does not
    contain the namespace's label; deleting the handle raises the
    exception that names the label. *)
Theorem namespace_handle_guard :
  Forall (fun key => forall (self : nat) (v : value) (s : Instances),
            set_attribute self (label_of key) v s =
              (Raise (TypeError "setter() takes exactly 1 argument (2 given)"), s) /\
            PyStr.contains (label_of key)
                           "setter() takes exactly 1 argument (2 given)" = false /\
            del_attribute self (label_of key) s =
              (Raise (Exception ("Cannot delete the " +:+ label_of key +:+ " object!")), s) /\
            PyStr.contains (label_of key)
                           ("Cannot delete the " +:+ label_of key +:+ " object!") = true)
         initializers.
Proof.
  repeat constructor.
Qed.

(** C8: for each of the six namespaces, reading the handle never raises;
    it returns the holder stored on the instance, after building and
    storing one if there was none (the constructor first reads the
    namespace's attribute handler, which the instance then keeps under
    [<key>attributes]), and reading again returns the same object and
    changes nothing. *)
Theorem namespace_handle_memoized :
  Forall (fun key => forall (self : nat) (s : Instances),
            exists h s1,
              get_attribute self (label_of key) s = (Ok h, s1) /\
              attrs s1 !! (self, holder_attr key) = Some h /\
              get_attribute self (label_of key) s1 = (Ok h, s1) /\
              match attrs s !! (self, holder_attr key) with
              | Some v => h = v /\ s1 = s
              | None =>
                  h = VHolder (length (holders s)) /\
                  holders s1 = holders s ++ [mkDbHolder self (key +:+ "attributes")
                                                        (key +:+ "attributes")] /\
                  attrs s1 = <[(self, holder_attr key) := h]>
                               (with_handler key self (attrs s))
              end)
         initializers.
Proof.
  pose proof class_lookup_label as Hc.
  rewrite Forall_forall in Hc. apply Forall_forall. intros key Hk self s.
  specialize (Hc key Hk).
  unfold get_attribute. rewrite Hc. unfold property_get. simpl fget.
  rewrite getter_run.
  destruct (attrs s !! (self, holder_attr key)) as [v|] eqn:E.
  - exists v, s. rewrite getter_run, E. auto.
  - eexists _, _. split; [reflexivity|].
    rewrite getter_run. simpl. rewrite lookup_insert_eq. auto.
Qed.

End Namespaces.

(** ** The statements on the sample world *)

Section OnSample.

Import Sample.

Lemma create_exit_cmdset_priority_witness :
  wizdb_exit_priority north = Some 5%Z /\
  priority (build_exit_cmdset (Ext := world) north north) = Some (-30)%Z.
Proof.
  split; [reflexivity|].
  apply (create_exit_cmdset_priority (Ext := world) north north None
           empty_store _ empty_store).
  reflexivity.
Defined.

Lemma create_exit_cmdset_gate_witness :
  fst (create_exit_cmdset (Ext := world) south south (Some hall) empty_store) = Ok None /\
  exists cs,
    create_exit_cmdset (Ext := world) north north None empty_store
      = (Ok (Some cs), empty_store) /\
    calls (snd (create_exit_cmdset (Ext := world) north north None empty_store)) = [].
Proof.
  split.
  - apply (proj1 (create_exit_cmdset_gate (Ext := world) south south (Some hall)
                    empty_store) alice); reflexivity.
  - apply (proj2 (create_exit_cmdset_gate (Ext := world) north north None empty_store)).
    reflexivity.
Defined.

Lemma zone_exit_commandset_aggregate_witness :
  exists s',
    zone_exit_commandset (Ext := world) hall empty_store = (Ok 0, s') /\
    cmdsets s' = [mkCmdSet (Some hall) "Unnamed CmdSet" (Some 0%Z) false
                           [exit_command (Ext := world) north]].
Proof.
  apply (zone_exit_commandset_aggregate (Ext := world) hall empty_store).
  vm_compute. discriminate.
Defined.

Lemma return_appearance_empty_room_witness :
  fst (return_appearance (Ext := world) hall (Some alice) empty_store) =
    Ok (Some ("{cHall{n" +:+ PyStr.newline)).
Proof.
  apply (return_appearance_empty_room (Ext := world) hall alice empty_store);
    reflexivity.
Defined.

Lemma exit_command_key_normalized_witness :
  cmd_key (exit_command (Ext := world) north) = PyText.of_string "north" /\
  cmd_key (exit_command (Ext := world) south) = PyText.of_string "north".
Proof.
  assert (key_variant (Ext := world) (db_key north) (db_key south)) as H.
  { exists [160%N; 32%N], (PyText.of_string "North"), [32%N],
           [], (PyText.of_string "NORTH"), [].
    repeat split; reflexivity. }
  destruct (exit_command_key_normalized (Ext := world) north south H) as (_ & _ & E).
  split; [reflexivity | rewrite <- E; reflexivity].
Defined.

(** In the yard the ferry, which has a destination and a player, is
    listed as an exit; alice, who is looking, is left out. *)
Example return_appearance_yard :
  fst (return_appearance (Ext := world) yard (Some alice) empty_store) =
    Ok (Some ("{cYard{n" +:+ PyStr.newline +:+ "A yard." +:+ PyStr.newline
              +:+ "{wExits:{n ferry" +:+ PyStr.newline +:+ "{wYou see:{n statue")).
Proof. reflexivity. Qed.

(** An exit whose override is absent gets the priority None. *)
Example create_exit_cmdset_no_override :
  wizdb_exit_priority ferry = None /\
  fst (create_exit_cmdset (Ext := world) ferry ferry None empty_store) =
    Ok (Some (mkCmdSet None "ExitCmdSet" None true [exit_command (Ext := world) ferry])).
Proof. split; reflexivity. Qed.

(** [entity.wizdb = 1] on a fresh entity. *)
Example assign_wizdb :
  Descriptors.set_attribute 1 "wizdb" (Descriptors.VInt 1) no_instances =
    (Raise (TypeError "setter() takes exactly 1 argument (2 given)"), no_instances).
Proof. reflexivity. Qed.

End OnSample.

(** ** The appearance hook, continued *)

Section AppearanceMore.

Context `{Ext : Externals}.

Lemma visible_none self looker :
  Forall (fun con => obj_ne con looker && access con looker "view" = false)
         (contents self) ->
  visible self looker = [].
Proof.
  unfold visible. induction 1 as [|con l Hc _ IH]; simpl; [reflexivity|].
  now rewrite Hc.
Qed.

(** X4: when every item in the container is the observer itself or fails
    the 'view' check, the text is the header followed by the evaluated
    description, with no 'Exits' and no 'You see' line. *)
Theorem return_appearance_nothing_visible self looker s :
  Forall (fun con => obj_ne con looker && access con looker "view" = false)
         (contents self) ->
  fst (return_appearance self (Some looker) s) =
    Ok (Some (let desc := evtemplate (or_empty (db_desc self)) (owner self)
                                     looker self "desc" in
              if PyStr.truthy desc then header self looker +:+ desc
              else header self looker)).
Proof.
  intros H. unfold return_appearance. rewrite (visible_none _ _ H). simpl.
  unfold bind, call_evtemplate, bind, log, modify, ret. simpl.
  destruct (PyStr.truthy _); reflexivity.
Qed.

End AppearanceMore.

(** ** The exit command set factory, continued *)

Section ExitFactoryMore.

Context `{Ext : Externals}.

(** X6: a command set that [create_exit_cmdset] returns is named
    'ExitCmdSet', allows duplicates, and holds what [CmdSet.add] made of one
    command added to a set that already carried that name, priority and
    duplicates flag; the command is an exit command for [exidbobj] (not for
    [self]) with its aliases, lock string and destination, no automatic
    help and the argument pattern that accepts no argument. *)
Theorem create_exit_cmdset_shape self ex loc s cs s' :
  create_exit_cmdset self ex loc s = (Ok (Some cs), s') ->
  key cs = "ExitCmdSet" /\ duplicates cs = true /\
  cmdsetobj cs = cmdsetobj (CmdSet_init None) /\
  (exists before cmd,
      commands cs = CmdSet_add_command before cmd /\
      key before = "ExitCmdSet" /\ duplicates before = true /\
      priority before = priority cs /\
      commands before = commands (CmdSet_init None) /\
      cmd_obj cmd = ex /\ cmd_aliases cmd = aliases_all ex /\
      cmd_locks cmd = locks_str ex /\ cmd_destination cmd = db_destination ex /\
      cmd_is_exit cmd = true /\ cmd_auto_help cmd = false /\
      cmd_arg_regex cmd = "^$").
Proof.
  intros ->%create_exit_cmdset_returns.
  repeat split. eexists _, _. repeat split.
Qed.

End ExitFactoryMore.

(** ** The zone command set, continued *)

Section ZoneMore.

Context `{Ext : Externals}.

(** X7: a container whose 'zone_room' tags read as false (no tag, an
    empty list, or a single empty tag) gets a new, untouched
    [CmdSet(self)]: nothing is merged into it and no lock check is made. *)
Theorem zone_exit_commandset_no_tags self s :
  tags_truthy (tags_get self "zone_room") = false ->
  zone_exit_commandset self s =
    (Ok (length (cmdsets s)),
     mkStore (calls s ++ [CallZoneExitCommandset self])
             (cmdsets s ++ [CmdSet_init (Some self)])
             (ndb_zone_cmdset s) (cmdset_handler s)).
Proof.
  intros H. unfold zone_exit_commandset. rewrite H. reflexivity.
Qed.

Lemma gate_calls_zone_checks self l : Forall (is_zone_check self) (gate_calls self l).
Proof.
  induction l as [|x l IH]; simpl; [constructor|].
  destruct (obj_typeclass x), (owner x); simpl;
    solve [exact IH | constructor; [now split | exact IH]].
Qed.

Lemma zone_loop_store self exits : forall c cs log0 ndb h,
  exists c' log',
    snd (for_each exits (add_zone_exit self (length cs))
                  (mkStore log0 (cs ++ [c]) ndb h)) =
      mkStore (log0 ++ log') (cs ++ [c']) ndb h /\
    Forall (is_zone_check self) log'.
Proof.
  induction exits as [|exit exits IH]; intros c cs log0 ndb h; simpl.
  - exists c, []. rewrite app_nil_r. split; [reflexivity | constructor].
  - pose proof (add_zone_exit_last self exit cs c log0 ndb h) as Hstep.
    destruct (eligible exit).
    + destruct (exit_result self exit) as [r|e].
      2:{ rewrite (bind_raise _ _ _ _ _ Hstep). simpl.
          exists c, (gate_calls self [exit]).
          split; [reflexivity | apply gate_calls_zone_checks]. }
      destruct (CmdSet_add_cmdset c r) as [l|e].
      * rewrite (bind_ok _ _ _ _ _ Hstep).
        destruct (IH (set_commands l c) cs (log0 ++ gate_calls self [exit]) ndb h)
          as (c' & log' & E & F).
        exists c', (gate_calls self [exit] ++ log'). rewrite E, app_assoc.
        split; [reflexivity|].
        apply Forall_app. split; [apply gate_calls_zone_checks | exact F].
      * rewrite (bind_raise _ _ _ _ _ Hstep). simpl.
        exists c, (gate_calls self [exit]).
        split; [reflexivity | apply gate_calls_zone_checks].
    + rewrite (bind_ok _ _ _ _ _ Hstep). apply IH.
Qed.


(** X8: whether it returns or raises, [zone_exit_commandset] adds
    exactly one object to the store and leaves every earlier command set
    object, every zone cache and every handler as they were; everything it
    records after its own entry is a lock check for 'open_exit' against the
    container, never against an exit's own location.  When it returns, it
    returns the address of the new object. *)
Theorem zone_exit_commandset_store self s :
  exists c log',
    snd (zone_exit_commandset self s) =
      mkStore (calls s ++ CallZoneExitCommandset self :: log')
              (cmdsets s ++ [c]) (ndb_zone_cmdset s) (cmdset_handler s) /\
    Forall (is_zone_check self) log' /\
    (forall addr, fst (zone_exit_commandset self s) = Ok addr ->
                  addr = length (cmdsets s)).
Proof.
  unfold zone_exit_commandset.
  erewrite bind_ok by reflexivity. erewrite bind_ok by reflexivity.
  set (exits := zone_exits _).
  destruct (zone_loop_store self exits (CmdSet_init (Some self)) (cmdsets s)
              (calls s ++ [CallZoneExitCommandset self])
              (ndb_zone_cmdset s) (cmdset_handler s)) as (c & log' & E & F).
  simpl in *. exists c, log'. unfold bind.
  destruct (for_each exits _ _) as [[[]|e] s1]; simpl in *; subst s1;
    rewrite <- app_assoc; (split; [reflexivity|]); (split; [exact F|]);
    intros addr; [now intros [= <-] | discriminate].
Qed.

End ZoneMore.

(** ** The zone cache, continued *)

Section ZoneCacheMore.

Context `{Ext : Externals}.

(** X10: when a merge of the zone aggregate raises, [at_cmdset_get] on a
    container without cache raises the same exception, caches nothing and
    registers nothing with the handler; the failed build still counts, and
    the next call builds and raises again. *)
Theorem at_cmdset_get_raises self s e :
  ndb_zone_cmdset s !! dbref self = None ->
  tags_get self "zone_room" <> TagsOne EmptyString ->
  zone_aggregate self = Raise e ->
  let s1 := snd (at_cmdset_get self s) in
  fst (at_cmdset_get self s) = Raise e /\
  ndb_zone_cmdset s1 = ndb_zone_cmdset s /\
  cmdset_handler s1 = cmdset_handler s /\
  rebuilds self s1 = rebuilds self s + 1 /\
  fst (at_cmdset_get self s1) = Raise e /\
  rebuilds self (snd (at_cmdset_get self s1)) = rebuilds self s + 2.
Proof.
  intros Hn Ht He.
  assert (forall s0, ndb_zone_cmdset s0 !! dbref self = None ->
            fst (at_cmdset_get self s0) = Raise e /\
            ndb_zone_cmdset (snd (at_cmdset_get self s0)) = ndb_zone_cmdset s0 /\
            cmdset_handler (snd (at_cmdset_get self s0)) = cmdset_handler s0 /\
            rebuilds self (snd (at_cmdset_get self s0)) = rebuilds self s0 + 1) as Hone.
  { intros s0 H0. pose proof (zone_exit_commandset_run self s0 Ht) as Hrun.
    rewrite He in Hrun. unfold at_cmdset_get.
    erewrite bind_ok by (unfold get_ndb_zone_cmdset, gets; now rewrite H0).
    simpl. destruct (zone_exit_commandset self s0) as [r s'] eqn:E.
    simpl in Hrun. subst r.
    rewrite (bind_raise _ _ _ _ _ E). simpl.
    destruct (zone_exit_commandset_rebuilds _ _ _ _ E) as (A & B & C). auto. }
  destruct (Hone s Hn) as (A & B & C & D). cbv zeta.
  split; [exact A|]. split; [exact B|]. split; [exact C|]. split; [exact D|].
  assert (ndb_zone_cmdset (snd (at_cmdset_get self s)) !! dbref self = None) as Hn1
    by now rewrite B.
  destruct (Hone _ Hn1) as (A1 & _ & _ & D1).
  split; [exact A1 | rewrite D1, D; lia].
Qed.

Lemma reset_zone_cmdset_run self s :
  reset_zone_cmdset self s =
    (Ok tt,
     match ndb_zone_cmdset s !! dbref self with
     | Some addr =>
         mkStore (calls s) (cmdsets s) (delete (dbref self) (ndb_zone_cmdset s))
                 (<[dbref self := handler_remove
                                    (default [] (cmdset_handler s !! dbref self)) addr]>
                    (cmdset_handler s))
     | None => s
     end).
Proof.
  unfold reset_zone_cmdset. erewrite bind_ok by reflexivity.
  destruct (ndb_zone_cmdset s !! dbref self); reflexivity.
Qed.


Lemma at_cmdset_get_miss_store self s addr s' :
  ndb_zone_cmdset s !! dbref self = None ->
  zone_exit_commandset self s = (Ok addr, s') ->
  at_cmdset_get self s =
    (Ok tt,
     mkStore (calls s') (cmdsets s') (<[dbref self := addr]> (ndb_zone_cmdset s'))
             (<[dbref self := handler_add (default [] (cmdset_handler s' !! dbref self)) addr]>
                (cmdset_handler s'))).
Proof.
  intros Hn E. unfold at_cmdset_get.
  erewrite bind_ok by (unfold get_ndb_zone_cmdset, gets; now rewrite Hn).
  simpl. erewrite bind_ok by exact E. erewrite bind_ok by reflexivity.
  erewrite bind_ok
    by (unfold get_ndb_zone_cmdset, gets; simpl; now rewrite lookup_insert_eq).
  reflexivity.
Qed.

(** X19: a build registers the new aggregate with the container's handler
    once, by [self.cmdset.add], and [reset_zone_cmdset] hands the same
    object to [self.cmdset.remove]; after the reset no aggregate is cached
    and the object is still in the store. *)
Theorem zone_cache_register_unregister self s s1 :
  ndb_zone_cmdset s !! dbref self = None ->
  at_cmdset_get self s = (Ok tt, s1) ->
  let a := length (cmdsets s) in
  let h0 := default [] (cmdset_handler s !! dbref self) in
  ndb_zone_cmdset s1 !! dbref self = Some a /\
  cmdset_handler s1 !! dbref self = Some (handler_add h0 a) /\
  cmdset_handler (snd (reset_zone_cmdset self s1)) !! dbref self
    = Some (handler_remove (handler_add h0 a) a) /\
  ndb_zone_cmdset (snd (reset_zone_cmdset self s1)) !! dbref self = None /\
  cmdsets (snd (reset_zone_cmdset self s1)) = cmdsets s1.
Proof.
  intros Hn H a h0.
  destruct (at_cmdset_get_miss _ _ _ Hn H) as (s' & Hz & _).
  destruct (zone_exit_commandset_rebuilds _ _ _ _ Hz) as (_ & B & _).
  rewrite (at_cmdset_get_miss_store _ _ _ _ Hn Hz) in H. injection H as <-.
  rewrite reset_zone_cmdset_run. simpl.
  rewrite !lookup_insert_eq. simpl. rewrite lookup_insert_eq, B.
  repeat split. apply lookup_delete_eq.
Qed.

End ZoneCacheMore.

(** ** The zone cache when the world changes *)

(** X12: the cache is not refreshed by changes of tags, of the tag index,
    of owners or of locks: once [at_cmdset_get] has returned, a later call
    made in any other state of the rest of the world still changes nothing
    and keeps the aggregate built before. *)
Theorem at_cmdset_get_stale (E1 E2 : Externals) self s s1 :
  at_cmdset_get (Ext := E1) self s = (Ok tt, s1) ->
  at_cmdset_get (Ext := E2) self s1 = (Ok tt, s1).
Proof.
  intros H.
  destruct (ndb_zone_cmdset s !! dbref self) as [addr|] eqn:Hz.
  - rewrite (at_cmdset_get_hit _ _ _ Hz) in H. injection H as <-.
    eapply at_cmdset_get_hit, Hz.
  - destruct (at_cmdset_get_miss _ _ _ Hz H) as (s' & _ & Hndb & _).
    eapply at_cmdset_get_hit. rewrite Hndb. apply lookup_insert_eq.
Qed.


(** ** The namespace descriptors, continued *)

Section NamespacesMore.

Import Descriptors.

Lemma holder_attr_not_guarded :
  Forall (fun key => class_lookup CollabBase (holder_attr key) = None) initializers.
Proof. repeat constructor. Qed.

Lemma get_handle_run key self s :
  In key initializers ->
  get_attribute self (label_of key) s =
    match attrs s !! (self, holder_attr key) with
    | Some v => (Ok v, s)
    | None =>
        (Ok (VHolder (length (holders s))),
         mkInstances (<[(self, holder_attr key) := VHolder (length (holders s))]>
                        (with_handler key self (attrs s)))
                     (holders s ++ [mkDbHolder self (key +:+ "attributes")
                                               (key +:+ "attributes")]))
    end.
Proof.
  intros Hk. pose proof class_lookup_label as Hc. rewrite List.Forall_forall in Hc.
  unfold get_attribute. rewrite (Hc key Hk). unfold property_get. simpl fget.
  apply getter_run.
Qed.

Lemma holder_attr_not_handler k1 k2 :
  In k2 initializers -> holder_attr k1 <> k2 +:+ "attributes".
Proof.
  unfold initializers, holder_attr. simpl. intros H.
  repeat (destruct H as [<-|H]; [discriminate|]). contradiction.
Qed.

Lemma with_handler_other key self m o n :
  (o, n) <> (self, key +:+ "attributes") ->
  with_handler key self m !! (o, n) = m !! (o, n).
Proof.
  intros Hne. unfold with_handler.
  destruct (m !! (self, key +:+ "attributes")); [reflexivity|].
  now rewrite lookup_insert_ne.
Qed.

Lemma holder_attr_inj k1 k2 :
  In k1 initializers -> In k2 initializers ->
  holder_attr k1 = holder_attr k2 -> k1 = k2.
Proof.
  unfold initializers. simpl. intros H1 H2.
  repeat (destruct H1 as [<-|H1]; [|]); try contradiction;
    repeat (destruct H2 as [<-|H2]; [|]); try contradiction;
    (reflexivity || (intros E; discriminate E)).
Qed.

(** X15: reading a namespace handle touches nothing but that entity's
    holder attribute and, when a holder is built, its [<key>attributes]:
    every other instance attribute, of this or any other entity, keeps its
    value, an attribute handler that was stored stays, and the holders that
    exist stay where they are. *)
Theorem namespace_handle_frame key self s :
  In key initializers ->
  let s1 := snd (get_attribute self (label_of key) s) in
  (forall o n, (o, n) <> (self, holder_attr key) ->
               (o, n) <> (self, key +:+ "attributes") ->
               attrs s1 !! (o, n) = attrs s !! (o, n)) /\
  (forall v, attrs s !! (self, key +:+ "attributes") = Some v ->
             attrs s1 !! (self, key +:+ "attributes") = Some v) /\
  (forall addr d, holders s !! addr = Some d -> holders s1 !! addr = Some d).
Proof.
  intros Hk. rewrite (get_handle_run _ _ _ Hk).
  destruct (attrs s !! (self, holder_attr key)); simpl; [now repeat split|].
  split; [|split].
  - intros o n Hne Hne'. rewrite lookup_insert_ne by congruence.
    now apply with_handler_other.
  - intros v Hv.
    rewrite lookup_insert_ne
      by (intros [= E]; now apply (holder_attr_not_handler key key Hk)).
    unfold with_handler. now rewrite Hv.
  - intros addr d Hd. now apply lookup_app_l_Some.
Qed.

(** X16: two different namespaces of an entity get two different holder
    objects, each wrapping its own attribute handler, and reading the second
    handle does not change what the first one reads as. *)
Theorem namespace_handles_distinct k1 k2 self s :
  In k1 initializers -> In k2 initializers -> k1 <> k2 ->
  attrs s !! (self, holder_attr k1) = None ->
  attrs s !! (self, holder_attr k2) = None ->
  exists a1 a2 s1 s2,
    get_attribute self (label_of k1) s = (Ok (VHolder a1), s1) /\
    get_attribute self (label_of k2) s1 = (Ok (VHolder a2), s2) /\
    a1 <> a2 /\
    holders s2 !! a1 = Some (mkDbHolder self (k1 +:+ "attributes") (k1 +:+ "attributes")) /\
    holders s2 !! a2 = Some (mkDbHolder self (k2 +:+ "attributes") (k2 +:+ "attributes")) /\
    get_attribute self (label_of k1) s2 = (Ok (VHolder a1), s2).
Proof.
  intros H1 H2 Hne N1 N2.
  assert (holder_attr k1 <> holder_attr k2) as Hattr
    by (intros E; apply Hne, (holder_attr_inj _ _ H1 H2 E)).
  assert ((self, holder_attr k2) <> (self, k1 +:+ "attributes")) as Hh2
    by (intros [= E]; now apply (holder_attr_not_handler k2 k1 H1)).
  assert ((self, holder_attr k1) <> (self, k2 +:+ "attributes")) as Hh1
    by (intros [= E]; now apply (holder_attr_not_handler k1 k2 H2)).
  eexists _, _, _, _.
  split; [rewrite (get_handle_run _ _ _ H1), N1; reflexivity|].
  split.
  { rewrite (get_handle_run _ _ _ H2). simpl.
    rewrite lookup_insert_ne by congruence.
    rewrite (with_handler_other _ _ _ _ _ Hh2), N2. reflexivity. }
  simpl. rewrite length_app. simpl.
  split; [lia|]. split.
  { rewrite <- app_assoc. now apply list_lookup_middle. }
  split.
  { apply list_lookup_middle. rewrite length_app. simpl. lia. }
  rewrite (get_handle_run _ _ _ H1). simpl.
  rewrite lookup_insert_ne by congruence.
  rewrite (with_handler_other _ _ _ _ _ Hh1).
  now rewrite lookup_insert_eq.
Qed.

(** X17: the guard covers the handle property only: the attribute the
    getter memoizes in can be assigned like any other, and the handle then
    reads as whatever was assigned (the getter returns what it finds,
    holder or not). *)
Theorem namespace_holder_attr_unguarded key self v s :
  In key initializers ->
  exists s1,
    set_attribute self (holder_attr key) v s = (Ok VNone, s1) /\
    get_attribute self (label_of key) s1 = (Ok v, s1).
Proof.
  intros Hk. pose proof holder_attr_not_guarded as Hg. rewrite List.Forall_forall in Hg.
  unfold set_attribute. rewrite (Hg key Hk).
  eexists. split; [reflexivity|].
  rewrite (get_handle_run _ _ _ Hk). simpl. now rewrite lookup_insert_eq.
Qed.

(** X18: on an entity whose imh holder has not been made yet,
    [check_protected] makes it (the holder of [imhattributes] for this
    entity, whose attribute handler the instance then keeps), returns what
    that holder reads under 'protected', and a second call returns the
    same without changing anything; the other namespaces get no holder. *)
Theorem check_protected_reads_imh (read : DbHolder -> string -> value) self s :
  attrs s !! (self, "_imh_holder") = None ->
  let d := mkDbHolder self "imhattributes" "imhattributes" in
  let s1 := mkInstances (<[(self, "_imh_holder") := VHolder (length (holders s))]>
                           (with_handler "imh" self (attrs s)))
                        (holders s ++ [d]) in
  check_protected read self s = (Ok (read d "protected"), s1) /\
  check_protected read self s1 = (Ok (read d "protected"), s1).
Proof.
  intros Hn d s1. unfold check_protected.
  assert (In "imh" initializers) as Hk by (simpl; auto).
  change "imhdb" with (label_of "imh").
  split.
  - erewrite bind_ok
      by (rewrite (get_handle_run _ _ _ Hk); change (holder_attr "imh") with "_imh_holder";
          rewrite Hn; reflexivity).
    simpl. rewrite list_lookup_middle by reflexivity. reflexivity.
  - erewrite bind_ok
      by (rewrite (get_handle_run _ _ _ Hk); change (holder_attr "imh") with "_imh_holder";
          subst s1; simpl; rewrite lookup_insert_eq; reflexivity).
    simpl. rewrite list_lookup_middle by reflexivity. reflexivity.
Qed.

End NamespacesMore.

(** ** The further statements on the sample worlds *)

Section MoreOnSample.

Import Sample.

Lemma return_appearance_nothing_visible_witness :
  fst (return_appearance (Ext := sample_world4) yard (Some alice) empty_store) =
    Ok (Some ("{cYard{n" +:+ PyStr.newline +:+ "A yard.")).
Proof.
  apply (return_appearance_nothing_visible (Ext := sample_world4) yard alice empty_store).
  repeat constructor.
Defined.

Lemma create_exit_cmdset_shape_witness :
  key (build_exit_cmdset (Ext := world) north north) = "ExitCmdSet" /\
  duplicates (build_exit_cmdset (Ext := world) north north) = true /\
  cmdsetobj (build_exit_cmdset (Ext := world) north north) = None /\
  (exists before cmd,
      commands (build_exit_cmdset (Ext := world) north north) = commands before ++ [cmd] /\
      key before = "ExitCmdSet" /\ duplicates before = true /\
      priority before = priority (build_exit_cmdset (Ext := world) north north) /\
      commands before = [] /\
      cmd_obj cmd = north /\ cmd_aliases cmd = ["n"] /\
      cmd_locks cmd = "traverse:all()" /\ cmd_destination cmd = Some 1 /\
      cmd_is_exit cmd = true /\ cmd_auto_help cmd = false /\
      cmd_arg_regex cmd = "^$").
Proof.
  apply (create_exit_cmdset_shape (Ext := world) north north None
           empty_store _ empty_store).
  reflexivity.
Defined.

Lemma zone_exit_commandset_no_tags_witness :
  zone_exit_commandset (Ext := world) yard empty_store =
    (Ok 0, mkStore [CallZoneExitCommandset yard]
                   [mkCmdSet (Some yard) "Unnamed CmdSet" (Some 0%Z) false []] ∅ ∅).
Proof.
  apply (zone_exit_commandset_no_tags (Ext := world) yard empty_store).
  reflexivity.
Defined.

Lemma at_cmdset_get_raises_witness :
  let e := AttributeError "'NoneType' object has no attribute 'obj'" in
  let s1 := snd (at_cmdset_get (Ext := sample_world3) hall empty_store) in
  fst (at_cmdset_get (Ext := sample_world3) hall empty_store) = Raise e /\
  ndb_zone_cmdset s1 = ∅ /\
  cmdset_handler s1 = ∅ /\
  rebuilds hall s1 = 1 /\
  fst (at_cmdset_get (Ext := sample_world3) hall s1) = Raise e /\
  rebuilds hall (snd (at_cmdset_get (Ext := sample_world3) hall s1)) = 2.
Proof.
  apply (at_cmdset_get_raises (Ext := sample_world3) hall empty_store).
  - reflexivity.
  - vm_compute. discriminate.
  - reflexivity.
Defined.

Lemma at_cmdset_get_stale_witness :
  at_cmdset_get (Ext := sample_world2) hall
    (snd (at_cmdset_get (Ext := world) hall empty_store)) =
  (Ok tt, snd (at_cmdset_get (Ext := world) hall empty_store)).
Proof.
  apply (at_cmdset_get_stale world sample_world2 hall empty_store).
  vm_compute. reflexivity.
Defined.



Lemma zone_cache_register_unregister_witness :
  let s1 := snd (at_cmdset_get (Ext := world) hall empty_store) in
  ndb_zone_cmdset s1 !! 1 = Some 0 /\
  cmdset_handler s1 !! 1 = Some [0] /\
  cmdset_handler (snd (reset_zone_cmdset (Ext := world) hall s1)) !! 1 = Some [] /\
  ndb_zone_cmdset (snd (reset_zone_cmdset (Ext := world) hall s1)) !! 1 = None /\
  cmdsets (snd (reset_zone_cmdset (Ext := world) hall s1)) = cmdsets s1.
Proof.
  apply (zone_cache_register_unregister (Ext := world) hall empty_store).
  - reflexivity.
  - vm_compute. reflexivity.
Defined.

Lemma namespace_handle_frame_witness :
  let s := snd (Descriptors.get_attribute 1 "wizdb" no_instances) in
  let s1 := snd (Descriptors.get_attribute 1 "pubdb" s) in
  (forall o n, (o, n) <> (1, "_pub_holder") -> (o, n) <> (1, "pubattributes") ->
               Descriptors.attrs s1 !! (o, n) = Descriptors.attrs s !! (o, n)) /\
  (forall v, Descriptors.attrs s !! (1, "pubattributes") = Some v ->
             Descriptors.attrs s1 !! (1, "pubattributes") = Some v) /\
  (forall addr d, Descriptors.holders s !! addr = Some d ->
                  Descriptors.holders s1 !! addr = Some d).
Proof.
  apply (namespace_handle_frame "pub" 1). simpl. auto.
Defined.

Lemma namespace_handles_distinct_witness :
  exists a1 a2 s1 s2,
    Descriptors.get_attribute 1 "wizdb" no_instances = (Ok (Descriptors.VHolder a1), s1) /\
    Descriptors.get_attribute 1 "wizhdb" s1 = (Ok (Descriptors.VHolder a2), s2) /\
    a1 <> a2 /\
    Descriptors.holders s2 !! a1
      = Some (Descriptors.mkDbHolder 1 "wizattributes" "wizattributes") /\
    Descriptors.holders s2 !! a2
      = Some (Descriptors.mkDbHolder 1 "wizhattributes" "wizhattributes") /\
    Descriptors.get_attribute 1 "wizdb" s2 = (Ok (Descriptors.VHolder a1), s2).
Proof.
  apply (namespace_handles_distinct "wiz" "wizh" 1 no_instances).
  - simpl. auto.
  - simpl. auto.
  - discriminate.
  - apply lookup_empty.
  - apply lookup_empty.
Defined.

Lemma namespace_holder_attr_unguarded_witness :
  exists s1,
    Descriptors.set_attribute 1 "_usr_holder" (Descriptors.VInt 7) no_instances
      = (Ok Descriptors.VNone, s1) /\
    Descriptors.get_attribute 1 "usrdb" s1 = (Ok (Descriptors.VInt 7), s1).
Proof.
  apply (namespace_holder_attr_unguarded "usr" 1 (Descriptors.VInt 7) no_instances).
  simpl. auto 10.
Defined.

Lemma check_protected_reads_imh_witness :
  let s1 := Descriptors.mkInstances
              (<[(1, "_imh_holder") := Descriptors.VHolder 0]>
                 {[ (1, "imhattributes") := Descriptors.VHandler "imh" 1 ]})
              [Descriptors.mkDbHolder 1 "imhattributes" "imhattributes"] in
  check_protected sample_holder_read 1 no_instances = (Ok (Descriptors.VInt 1), s1) /\
  check_protected sample_holder_read 1 s1 = (Ok (Descriptors.VInt 1), s1).
Proof.
  apply (check_protected_reads_imh sample_holder_read 1 no_instances).
  apply lookup_empty.
Defined.

End MoreOnSample.

(** ** The claims on the zone, and where they fail *)

Section ZoneClaims.

Context `{Ext : Externals}.


End ZoneClaims.

Section ZoneClaimsOnSample.

Import Sample.



(** Against C4 as stated: in [sample_world5] the hall has one tag under
    'zone_room', the empty one, and [north] is indexed under it, so the
    rule of the claim merges the command set of [north]; the code reads the
    tag as no tag and returns the empty aggregate. *)
Lemma zone_exit_commandset_empty_tag :
  tags_of (tags_get (Externals := sample_world5) hall "zone_room") = [EmptyString] /\
  zone_members (Ext := sample_world5) hall = [north] /\
  zone_aggregate (Ext := sample_world5) hall =
    Ok (mkCmdSet (Some hall) "Unnamed CmdSet" (Some 0%Z) false
                 [exit_command (Ext := world) north]) /\
  zone_exit_commandset (Ext := sample_world5) hall empty_store =
    (Ok 0, mkStore [CallZoneExitCommandset hall]
                   [mkCmdSet (Some hall) "Unnamed CmdSet" (Some 0%Z) false []] ∅ ∅) /\
  ~ (exists s',
        zone_exit_commandset (Ext := sample_world5) hall empty_store = (Ok 0, s') /\
        cmdsets s' = [mkCmdSet (Some hall) "Unnamed CmdSet" (Some 0%Z) false
                               [exit_command (Ext := world) north]]).
Proof.
  repeat split; try reflexivity.
  intros (s' & E & Hc). vm_compute in E. injection E as <-. discriminate Hc.
Qed.

(** A stock exit carrying the zone tag makes the build raise: its
    [create_exit_cmdset] takes no [location]. *)
Example zone_exit_commandset_stock_exit :
  fst (zone_exit_commandset (Ext := sample_world6) hall empty_store) =
    Raise (TypeError
             "create_exit_cmdset() got an unexpected keyword argument 'location'").
Proof. reflexivity. Qed.

End ZoneClaimsOnSample.
